(** * The rundeck action executor (src/rundeck_action/action_types/rundeck.ts)

    A shallow embedding of [executor] and its helpers.  The executor is
    straight-line glue around three remote collaborators: the Rundeck job
    API ([axios.post]), the Pager Duty API ([axios.get] and [axios.post])
    and a Slack incoming webhook ([webhook.send]).  The collaborators are
    an oracle [Env]; a run produces a completion (a returned result or a
    thrown value, which is a rejected promise for the caller) together
    with the trace of the calls it made. *)

From Stdlib Require Import String Ascii List ZArith Bool Lia.
From Stdlib Require Import DecimalString.
Import ListNotations.
Open Scope list_scope.
Open Scope string_scope.

(** ** JavaScript values

    Everything the executor reads from a collaborator is typed [any]: a
    response, a response body, a thrown error.  Such values are modelled
    as JSON-like data: what [JSON.parse] yields, and the plain fields of a
    thrown error.  In a [JObj] the first binding of a key is the one that
    counts.  Numbers are integers (HTTP status codes, lengths, an
    integral API version); [schema.number()] also admits fractions and
    magnitudes that print with an exponent, which are outside the model. *)

#[warnings="-register-all"]
Inductive JsVal : Type :=
| JUndefined
| JNull
| JBool (b : bool)
| JNum (n : Z)
| JStr (s : string)
| JArr (items : list JsVal)
| JObj (fields : list (string * JsVal)).

(** [!v] is [negb (truthy v)]. *)
Definition truthy (v : JsVal) : bool :=
  match v with
  | JUndefined | JNull => false
  | JBool b => b
  | JNum n => negb (Z.eqb n 0)
  | JStr s => negb (String.eqb s EmptyString)
  | JArr _ | JObj _ => true
  end.

Definition nullish (v : JsVal) : bool :=
  match v with
  | JUndefined | JNull => true
  | _ => false
  end.

(** A [nullableType(schema.string())] value: a string or [null]. *)
Definition of_nullable (o : option string) : JsVal :=
  match o with
  | Some s => JStr s
  | None => JNull
  end.

Definition string_of_Z (n : Z) : string :=
  NilZero.string_of_int (Z.to_int n).

Fixpoint join (sep : string) (l : list string) : string :=
  match l with
  | [] => EmptyString
  | [s] => s
  | s :: rest => s ++ sep ++ join sep rest
  end.

Fixpoint lookup {A : Type} (k : string) (l : list (string * A)) : option A :=
  match l with
  | [] => None
  | (k', v) :: rest => if String.eqb k k' then Some v else lookup k rest
  end.

(** The string a template literal [`${v}`] puts in place of [v]; [None]
    stands for the TypeError of a value that cannot be converted.  An
    object prints through [Object.prototype.toString] unless it has a key
    [toString] of its own: the value under it is data, not a function, so
    the conversion finds nothing to call and fails.  An array prints its
    elements joined by commas, [null] and [undefined] as nothing, and
    fails when an element does. *)
Fixpoint to_string (v : JsVal) : option string :=
  match v with
  | JUndefined => Some "undefined"
  | JNull => Some "null"
  | JBool true => Some "true"
  | JBool false => Some "false"
  | JNum n => Some (string_of_Z n)
  | JStr s => Some s
  | JArr items =>
      option_map (join ",")
        ((fix each (l : list JsVal) : option (list string) :=
            match l with
            | [] => Some []
            | x :: rest =>
                match (if nullish x then Some EmptyString else to_string x),
                      each rest with
                | Some s, Some ss => Some (s :: ss)
                | _, _ => None
                end
            end) items)
  | JObj fields =>
      match lookup "toString" fields with
      | Some _ => None
      | None => Some "[object Object]"
      end
  end.

(** [`${x}`] for a string or [null]. *)
Definition string_of_nullable (x : option string) : string :=
  match x with
  | Some s => s
  | None => "null"
  end.

(** [v.k].  [None] stands for the TypeError that reading a property of
    [undefined] or [null] throws.  None of the property names the
    executor reads is found on a prototype, so a missing own property is
    [undefined]. *)
Definition get_prop (v : JsVal) (k : string) : option JsVal :=
  match v with
  | JUndefined | JNull => None
  | JObj fields =>
      Some (match lookup k fields with Some x => x | None => JUndefined end)
  | JArr items =>
      Some (if String.eqb k "length"
            then JNum (Z.of_nat (List.length items)) else JUndefined)
  | JStr s =>
      Some (if String.eqb k "length"
            then JNum (Z.of_nat (String.length s)) else JUndefined)
  | JBool _ | JNum _ => Some JUndefined
  end.

(** [v.pop()].  Only an array has a [pop] to call; on an array it yields
    the last element, [undefined] when there is none. *)
Definition pop (v : JsVal) : option JsVal :=
  match v with
  | JArr items => Some (List.last items JUndefined)
  | _ => None
  end.

(** A property chain [v.k1.k2...]. *)
Fixpoint get_path (v : JsVal) (ks : list string) : option JsVal :=
  match ks with
  | [] => Some v
  | k :: rest =>
      match get_prop v k with
      | Some x => get_path x rest
      | None => None
      end
  end.

(** ** Strings *)

(** The double-quote character, as a string. *)
Definition dquote : string := String "034"%char EmptyString.

(** [hay.includes(needle)] *)
Fixpoint includes (needle hay : string) : bool :=
  String.prefix needle hay ||
  match hay with
  | EmptyString => false
  | String _ rest => includes needle rest
  end.

Fixpoint endsWith (s suffix : string) : bool :=
  String.eqb s suffix ||
  match s with
  | EmptyString => false
  | String _ rest => endsWith rest suffix
  end.

(** [s.slice(0, -1)] *)
Fixpoint slice_0_m1 (s : string) : string :=
  match s with
  | EmptyString => EmptyString
  | String _ EmptyString => EmptyString
  | String c rest => String c (slice_0_m1 rest)
  end.

(** ** Inputs and results *)

(** A [recordOf(string, string)] object, in insertion order. *)
Definition Headers := list (string * string).

(** [Object.assign({}, headers, {k: v})]: an existing key keeps its place
    and takes the new value, a new key goes last. *)
Fixpoint assign (headers : Headers) (k v : string) : Headers :=
  match headers with
  | [] => [(k, v)]
  | (k', v') :: rest =>
      if String.eqb k k' then (k', v) :: rest else (k', v') :: assign rest k v
  end.

Record ActionTypeConfigType := {
  rundeckBaseUrl : string;
  rundeckApiVersion : Z;
  rundeckJobId : string;
  headers : option Headers
}.

Record ActionTypeSecretsType := {
  rundeckApiToken : string;
  pdApiKey : option string;
  slackWebhookUrl : option string
}.

Record ActionParamsType := {
  dedupKey : option string;
  alertName : option string;
  jobParams : JsVal
}.

Record ActionTypeExecutorOptions := {
  actionId : string;
  config : ActionTypeConfigType;
  secrets : ActionTypeSecretsType;
  params : ActionParamsType
}.

(** [{status: 'ok', data}] or [{status: 'error', message}] *)
Inductive ActionTypeExecutorResult : Type :=
| StatusOk (data : JsVal)
| StatusError (message : string).

(** ** Collaborators, traces and the execution monad *)

(** How an awaited promise settles. *)
Inductive Settled : Type :=
| Resolved (value : JsVal)
| Rejected (err : JsVal).

Inductive LogLevel : Type := Info | Warn.

Inductive Event : Type :=
| AxiosPost (url : string) (body : JsVal) (hdrs : Headers) (s : Settled)
| AxiosGet (url : string) (hdrs : Headers) (s : Settled)
| WebhookSend (url : string) (message : JsVal) (s : Settled)
| Log (level : LogLevel) (text : string).

Definition Trace := list Event.

(** The remote collaborators.  An answer may depend on everything that
    happened before the call. *)
Record Env := {
  axios_post : Trace -> string -> JsVal -> Headers -> Settled;
  axios_get : Trace -> string -> Headers -> Settled;
  webhook_send : Trace -> string -> JsVal -> Settled
}.

Inductive Completion (A : Type) : Type :=
| Normal (a : A)
| Abrupt (thrown : JsVal).
Arguments Normal {A} a.
Arguments Abrupt {A} thrown.

Definition M (A : Type) : Type := Trace -> Completion A * Trace.

Definition ret {A} (a : A) : M A := fun t => (Normal a, t).

Definition bind {A B} (m : M A) (k : A -> M B) : M B :=
  fun t =>
    match m t with
    | (Normal a, t') => k a t'
    | (Abrupt e, t') => (Abrupt e, t')
    end.

Notation "x <- m ;; k" := (bind m (fun x => k))
  (at level 61, m at next level, right associativity).
Notation "m ;;; k" := (bind m (fun _ => k))
  (at level 61, right associativity).

(** [try { m } catch (err) { ... }]: the body's completion as a value. *)
Definition attempt {A} (m : M A) : M (A + JsVal) :=
  fun t =>
    match m t with
    | (Normal a, t') => (Normal (inl a), t')
    | (Abrupt e, t') => (Normal (inr e), t')
    end.

Definition emit (e : Event) : M unit := fun t => (Normal tt, (t ++ [e])%list).

(** [await p]: a rejection is thrown. *)
Definition await (ask : Trace -> Settled) (ev : Settled -> Event) : M JsVal :=
  fun t =>
    match ask t with
    | Resolved v => (Normal v, (t ++ [ev (Resolved v)])%list)
    | Rejected e => (Abrupt e, (t ++ [ev (Rejected e)])%list)
    end.

(** The TypeError of a property read on [undefined] or [null].  Its
    message depends on the engine's version and is left out: no property
    is read inside a [try], so nothing ever looks at this error. *)
Definition TypeError : JsVal := JObj [("name", JStr "TypeError")].

(** The TypeError of a failed conversion to a string, with V8's message.
    A conversion can fail inside a [try], where the catch block reads the
    error's fields. *)
Definition conversionError : JsVal :=
  JObj [("name", JStr "TypeError");
        ("message", JStr "Cannot convert object to primitive value")].

(** Expressions without remote calls: a value or a thrown error. *)
Definition cbind {A B} (c : Completion A) (k : A -> Completion B)
  : Completion B :=
  match c with
  | Normal a => k a
  | Abrupt e => Abrupt e
  end.

Notation "x <~ c ;; k" := (cbind c (fun x => k))
  (at level 61, c at next level, right associativity).

Definition read (v : JsVal) (k : string) : Completion JsVal :=
  match get_prop v k with
  | Some x => Normal x
  | None => Abrupt TypeError
  end.

Definition read_path (v : JsVal) (ks : list string) : Completion JsVal :=
  match get_path v ks with
  | Some x => Normal x
  | None => Abrupt TypeError
  end.

Definition print (v : JsVal) : Completion string :=
  match to_string v with
  | Some s => Normal s
  | None => Abrupt conversionError
  end.

Definition lift {A} (c : Completion A) : M A := fun t => (c, t).

Definition logger (level : LogLevel) (text : string) : M unit :=
  emit (Log level text).

(** ** The action *)

Definition successResult (data : JsVal) : ActionTypeExecutorResult :=
  StatusOk data.

Definition errorPagerDutyProcess (id : string) (message : JsVal)
  : Completion ActionTypeExecutorResult :=
  text <~ print message ;;
  Normal
    (StatusError
       ("An error occurred while calling Pager Duty API in rundeck action "
          ++ dquote ++ id ++ dquote ++ ": " ++ text)).

Definition errorSlackProcess (id : string) (message : JsVal)
  : Completion ActionTypeExecutorResult :=
  text <~ print message ;;
  Normal
    (StatusError
       ("Invalid Response: an error occurred in rundeck action "
          ++ dquote ++ id ++ dquote ++ ": " ++ text)).

Definition errorResult (id : string) (message : JsVal)
  : Completion ActionTypeExecutorResult :=
  text <~ print message ;;
  Normal
    (StatusError
       ("Invalid Response: an error occurred in rundeck action "
          ++ dquote ++ id ++ dquote ++ " calling a rundeck job: " ++ text)).

Definition headers_or_empty (h : option Headers) : Headers :=
  match h with
  | Some h => h
  | None => []
  end.

Definition rundeckApiUrl (rundeckBaseUrl : string) (rundeckApiVersion : Z)
    (rundeckJobId : string) : string :=
  let rundeckBaseUrlWithoutSlash :=
    if endsWith rundeckBaseUrl "/" then slice_0_m1 rundeckBaseUrl
    else rundeckBaseUrl in
  rundeckBaseUrlWithoutSlash ++ "/api/" ++ string_of_Z rundeckApiVersion
    ++ "/job/" ++ rundeckJobId ++ "/executions".

Definition executeRundeckJob (env : Env) (headers : option Headers)
    (rundeckBaseUrl rundeckApiToken : string) (rundeckApiVersion : Z)
    (rundeckJobId : string) (jobParams : JsVal) : M JsVal :=
  let headers :=
    assign (headers_or_empty headers) "X-Rundeck-Auth-Token" rundeckApiToken in
  let url := rundeckApiUrl rundeckBaseUrl rundeckApiVersion rundeckJobId in
  await (fun t => axios_post env t url jobParams headers)
        (AxiosPost url jobParams headers).

Definition pdAuthorization (pdApiKey : option string) : string :=
  "Token token=" ++ string_of_nullable pdApiKey.

Definition pdIncidentListApiUrl (dedupKey : string) : string :=
  "https://api.pagerduty.com/incidents?date_range=all&incident_key="
    ++ dedupKey.

Definition getPagerDutyIncidentList (env : Env) (headers : option Headers)
    (pdApiKey : option string) (dedupKey : string) : M JsVal :=
  let headers :=
    assign (headers_or_empty headers) "authorization"
           (pdAuthorization pdApiKey) in
  let url := pdIncidentListApiUrl dedupKey in
  await (fun t => axios_get env t url headers) (AxiosGet url headers).

Definition pdAddNoteApiUrl (incidentId : string) : string :=
  "https://api.pagerduty.com/incidents/" ++ incidentId ++ "/notes".

Definition linkText (executionLink : string) : string :=
  "Rundeck job for the alert is triggered. Link: " ++ executionLink.

Definition noteMessage (executionLink : string) : JsVal :=
  JObj [("note", JObj [("content", JStr (linkText executionLink))])].

(** The URL and the note are built, and [incidentId] and [executionLink]
    converted to strings, before the request is made. *)
Definition addNoteToPagerDutyIncident (env : Env) (headers : option Headers)
    (pdApiKey : option string) (incidentId executionLink : JsVal) : M JsVal :=
  let headers :=
    assign (headers_or_empty headers) "authorization"
           (pdAuthorization pdApiKey) in
  id <- lift (print incidentId) ;;
  let url := pdAddNoteApiUrl id in
  link <- lift (print executionLink) ;;
  let body := noteMessage link in
  await (fun t => axios_post env t url body headers)
        (AxiosPost url body headers).

Definition slackMessage (alertName : option string) (executionLink : string)
  : JsVal :=
  JObj [("text", of_nullable alertName);
        ("attachments", JArr [JObj [("text", JStr (linkText executionLink))]])].

Definition neitherMessage : string :=
  "Neither of dedupKey nor slackWebhookUrl are provided, failed to send message to PagerDuty incident or slack channel.".

(** [err.response ? err.response.data.message : err.message] *)
Definition rundeckErrorMessage (err : JsVal) : Completion JsVal :=
  response <~ read err "response" ;;
  if truthy response then read_path response ["data"; "message"]
  else read err "message".

(** [err.response ? `${err.response.status} ${err.response.data.error.message}` : err.message] *)
Definition pagerDutyErrorMessage (err : JsVal) : Completion JsVal :=
  response <~ read err "response" ;;
  if truthy response then
    status <~ read response "status" ;;
    status <~ print status ;;
    message <~ read_path response ["data"; "error"; "message"] ;;
    message <~ print message ;;
    Normal (JStr (status ++ " " ++ message))
  else read err "message".

Definition emptyListMessage (dedupKey : string) : string :=
  "Pager Duty incident list requested by dedupKey(incident_key), "
    ++ dquote ++ dedupKey ++ dquote ++ ", is empty.".

Definition slackErrorMessage (error : string) : string :=
  "an error occurred while calling slack webhook: " ++ error.

Definition executor (env : Env) (execOptions : ActionTypeExecutorOptions)
  : M ActionTypeExecutorResult :=
  let actionId := actionId execOptions in
  let headers := headers (config execOptions) in
  let pdApiKey := pdApiKey (secrets execOptions) in
  let slackWebhookUrl := slackWebhookUrl (secrets execOptions) in
  let dedupKey := dedupKey (params execOptions) in
  let alertName := alertName (params execOptions) in
  (* call Rundeck job execution API *)
  r <- attempt
         (executeRundeckJob env headers
            (rundeckBaseUrl (config execOptions))
            (rundeckApiToken (secrets execOptions))
            (rundeckApiVersion (config execOptions))
            (rundeckJobId (config execOptions))
            (jobParams (params execOptions))) ;;
  match r with
  | inr err =>
      (* try to use response message first then using axios stack message *)
      message <- lift (rundeckErrorMessage err) ;;
      shown <- lift (print message) ;;
      logger Warn ("Error on " ++ actionId ++ " rundeck action: " ++ shown) ;;;
      lift (errorResult actionId message)
  | inl rundeckResult =>
      (* retrieve the rundeck job link *)
      executionLink <- lift (read_path rundeckResult ["data"; "permalink"]) ;;
      if negb (truthy (of_nullable dedupKey)) then
        (* send slack message when "dedupKey" is not set *)
        if negb (truthy (of_nullable slackWebhookUrl)) then
          lift (errorSlackProcess actionId (JStr neitherMessage))
        else
          let url := string_of_nullable slackWebhookUrl in
          s <- attempt
                 (link <- lift (print executionLink) ;;
                  let message := slackMessage alertName link in
                  await (fun t => webhook_send env t url message)
                        (WebhookSend url message) ;;;
                  logger Info ("Sending message to Slack succeeded in rundeck action "
                                 ++ dquote ++ actionId ++ dquote ++ ".")) ;;
          match s with
          | inr err =>
              error <- lift (read err "error") ;;
              error <- lift (print error) ;;
              let message := slackErrorMessage error in
              logger Warn ("Error on " ++ actionId ++ " rundeck action: "
                             ++ message) ;;;
              lift (errorSlackProcess actionId (JStr message))
          | inl _ =>
              (* return with rundeck result. *)
              data <- lift (read rundeckResult "data") ;;
              ret (successResult data)
          end
      else
        (* call Pager Duty incident list API to retrieve incident id *)
        let key := string_of_nullable dedupKey in
        l <- attempt
               (res <- getPagerDutyIncidentList env headers pdApiKey key ;;
                logger Info ("Retrieving Pager Duty incident list succeeded in rundeck action "
                               ++ dquote ++ actionId ++ dquote ++ ".") ;;;
                ret res) ;;
        match l with
        | inr err =>
            message <- lift (pagerDutyErrorMessage err) ;;
            shown <- lift (print message) ;;
            logger Warn ("error on " ++ actionId
                           ++ " rundeck action: an error occurred while calling pager duty API: "
                           ++ shown) ;;;
            lift (errorPagerDutyProcess actionId message)
        | inl pdIncidentListResult =>
            incidents <- lift (read_path pdIncidentListResult
                                 ["data"; "incidents"]) ;;
            length <- lift (read incidents "length") ;;
            if negb (truthy length) then
              (* incident list is empty *)
              let message := emptyListMessage key in
              logger Warn ("error on " ++ actionId ++ " rundeck action: "
                             ++ message) ;;;
              lift (errorPagerDutyProcess actionId (JStr message))
            else
              (* get incident id *)
              incident <- lift (match pop incidents with
                                | Some x => Normal x
                                | None => Abrupt TypeError
                                end) ;;
              incidentId <- lift (read incident "id") ;;
              (* call Pager Duty add note API *)
              n <- attempt
                     (addNoteToPagerDutyIncident env headers pdApiKey
                        incidentId executionLink ;;;
                      logger Info ("Calling pagerduty "
                                     ++ dquote ++ "create a note API" ++ dquote
                                     ++ " step succeeded in rundeck action "
                                     ++ dquote ++ actionId ++ dquote)) ;;
              match n with
              | inr err =>
                  message <- lift (pagerDutyErrorMessage err) ;;
                  shown <- lift (print message) ;;
                  logger Warn ("error on " ++ actionId
                                 ++ " rundeck action: an error occurred while calling pager duty API: "
                                 ++ shown) ;;;
                  message' <- lift (read err "message") ;;
                  lift (errorPagerDutyProcess actionId message')
              | inl _ =>
                  status <- lift (read rundeckResult "status") ;;
                  status <- lift (print status) ;;
                  statusText <- lift (read rundeckResult "statusText") ;;
                  statusText <- lift (print statusText) ;;
                  logger Info ("response from rundeck action "
                                 ++ dquote ++ actionId ++ dquote ++ ": [HTTP "
                                 ++ status ++ "] " ++ statusText) ;;;
                  data <- lift (read rundeckResult "data") ;;
                  ret (successResult data)
              end
        end
  end.

(** A run from the empty trace: what the caller gets, and what was called. *)
Definition run (env : Env) (execOptions : ActionTypeExecutorOptions)
  : Completion ActionTypeExecutorResult * Trace :=
  executor env execOptions [].

Definition outcome (env : Env) (o : ActionTypeExecutorOptions)
  : Completion ActionTypeExecutorResult := fst (run env o).

Definition trace (env : Env) (o : ActionTypeExecutorOptions) : Trace :=
  snd (run env o).

(** The test the executor applies to an optional string: [if (!x)].  The
    empty string fails it like [null] does. *)
Definition provided (x : option string) : bool := truthy (of_nullable x).

Definition is_remote (e : Event) : bool :=
  match e with
  | Log _ _ => false
  | _ => true
  end.

(** The calls to the collaborators, in order, without the log lines. *)
Definition remote_calls (t : Trace) : Trace := filter is_remote t.

(** An error result whose message mentions the action id [id]. *)
Definition names_action (id : string) (r : ActionTypeExecutorResult) : Prop :=
  match r with
  | StatusOk _ => True
  | StatusError message => includes id message = true
  end.

(** The settlement of the job-trigger call, which opens every trace. *)
Definition job_trigger (t : Trace) : option Settled :=
  match t with
  | AxiosPost _ _ _ s :: _ => Some s
  | _ => None
  end.

(** ** Sample inputs and collaborators *)

Definition ex_config : ActionTypeConfigType :=
  {| rundeckBaseUrl := "https://rundeck.example.com/";
     rundeckApiVersion := 24;
     rundeckJobId := "job-1";
     headers := Some [("x-team", "ops")] |}.

Definition ex_options (dedupKey pdApiKey slackWebhookUrl : option string)
  : ActionTypeExecutorOptions :=
  {| actionId := "a1";
     config := ex_config;
     secrets := {| rundeckApiToken := "tok";
                   pdApiKey := pdApiKey;
                   slackWebhookUrl := slackWebhookUrl |};
     params := {| dedupKey := dedupKey;
                  alertName := Some "cpu high";
                  jobParams := JUndefined |} |}.

Definition ex_jobData : JsVal :=
  JObj [("id", JNum 7); ("permalink", JStr "https://rundeck.example.com/e/7")].

Definition ex_jobResponse : JsVal :=
  JObj [("status", JNum 200); ("statusText", JStr "OK"); ("data", ex_jobData)].

(** An axios error without a response (the request never got through). *)
Definition ex_transportError : JsVal :=
  JObj [("message", JStr "connect ECONNREFUSED")].

(** An axios error for a response with status [status] and body [body]. *)
Definition ex_httpError (status : Z) (body : JsVal) : JsVal :=
  JObj [("message",
         JStr ("Request failed with status code " ++ string_of_Z status));
        ("response", JObj [("status", JNum status); ("data", body)])].

(** Pager Duty's answer for an unknown incident. *)
Definition ex_notFound : JsVal :=
  ex_httpError 404 (JObj [("error", JObj [("message", JStr "Not Found")])]).

Definition ex_incidents (l : list JsVal) : JsVal :=
  JObj [("status", JNum 200); ("data", JObj [("incidents", JArr l)])].

Definition ex_incident (id : string) : JsVal := JObj [("id", JStr id)].

(** A JSON object that cannot be converted to a string: the body
    [{"toString": "x"}]. *)
Definition ex_unprintable : JsVal := JObj [("toString", JStr "x")].

(** The job trigger settles as [job]. *)
Definition ex_env_job (job : Settled) : Env :=
  {| axios_post := fun _ _ _ _ => job;
     axios_get := fun _ _ _ => Rejected ex_transportError;
     webhook_send := fun _ _ _ => Rejected ex_transportError |}.

(** The job is triggered; the webhook settles as [slack]. *)
Definition ex_env_slack (slack : Settled) : Env :=
  {| axios_post := fun _ _ _ _ => Resolved ex_jobResponse;
     axios_get := fun _ _ _ => Rejected ex_transportError;
     webhook_send := fun _ _ _ => slack |}.

(** The job is triggered; the incident list settles as [list] and the
    note-post as [note]. *)
Definition ex_env_pd (list note : Settled) : Env :=
  {| axios_post := fun t _ _ _ =>
       match t with
       | [] => Resolved ex_jobResponse
       | _ => note
       end;
     axios_get := fun _ _ _ => list;
     webhook_send := fun _ _ _ => Rejected ex_transportError |}.

(** ** Vocabulary for the properties of runs *)

(** The headers a remote call was made with; a webhook call has none of
    the executor's making. *)
Definition request_headers (e : Event) : option Headers :=
  match e with
  | AxiosPost _ _ hdrs _ => Some hdrs
  | AxiosGet _ hdrs _ => Some hdrs
  | WebhookSend _ _ _ | Log _ _ => None
  end.

(** The headers of both Pager Duty requests: the configured headers with
    [authorization] set from [pdApiKey]. *)
Definition pagerDutyHeaders (o : ActionTypeExecutorOptions) : Headers :=
  assign (headers_or_empty (headers (config o))) "authorization"
    (pdAuthorization (pdApiKey (secrets o))).

Definition is_some {A : Type} (x : option A) : bool :=
  match x with
  | Some _ => true
  | None => false
  end.

Definition printable (v : JsVal) : bool := is_some (to_string v).

(** The message an expression yields can be printed. *)
Definition prints (c : Completion JsVal) : bool :=
  match c with
  | Normal message => printable message
  | Abrupt _ => false
  end.

(** A property that can be read and printed. *)
Definition prints_prop (v : JsVal) (k : string) : bool :=
  match get_prop v k with
  | Some x => printable x
  | None => false
  end.

(** An incident-list response whose [data.incidents] is an array without
    [null] or [undefined] entries. *)
Definition incident_objects (resp : JsVal) : bool :=
  match get_path resp ["data"; "incidents"] with
  | Some (JArr items) => forallb (fun i => negb (nullish i)) items
  | _ => false
  end.

(** Collaborators whose answers have the fields the executor reads, in a
    form it can print.  The job trigger is the [axios.post] of the empty
    trace, the note-post any later one. *)
Record well_behaved (env : Env) : Prop := {
  wb_job_error : forall url body hdrs err,
    axios_post env [] url body hdrs = Rejected err ->
    prints (rundeckErrorMessage err) = true;
  wb_job_response : forall url body hdrs r,
    axios_post env [] url body hdrs = Resolved r ->
    is_some (get_path r ["data"; "permalink"]) = true
    /\ prints_prop r "status" = true
    /\ prints_prop r "statusText" = true;
  wb_webhook_error : forall t url message err,
    webhook_send env t url message = Rejected err ->
    prints_prop err "error" = true;
  wb_list_error : forall t url hdrs err,
    axios_get env t url hdrs = Rejected err ->
    prints (pagerDutyErrorMessage err) = true;
  wb_incident_list : forall t url hdrs r,
    axios_get env t url hdrs = Resolved r -> incident_objects r = true;
  wb_note_error : forall ev t url body hdrs err,
    axios_post env (ev :: t) url body hdrs = Rejected err ->
    prints (pagerDutyErrorMessage err) = true
    /\ prints_prop err "message" = true
}.

(** The same options with another Pager Duty key. *)
Definition with_pdApiKey (o : ActionTypeExecutorOptions) (k : option string)
  : ActionTypeExecutorOptions :=
  {| actionId := actionId o;
     config := config o;
     secrets := {| rundeckApiToken := rundeckApiToken (secrets o);
                   pdApiKey := k;
                   slackWebhookUrl := slackWebhookUrl (secrets o) |};
     params := params o |}.

(** The same options with another webhook URL and alert name. *)
Definition with_slack (o : ActionTypeExecutorOptions)
    (url : option string) (name : option string) : ActionTypeExecutorOptions :=
  {| actionId := actionId o;
     config := config o;
     secrets := {| rundeckApiToken := rundeckApiToken (secrets o);
                   pdApiKey := pdApiKey (secrets o);
                   slackWebhookUrl := url |};
     params := {| dedupKey := dedupKey (params o);
                  alertName := name;
                  jobParams := jobParams (params o) |} |}.

(** ** Proof tools *)

Ltac head_scrutinee t :=
  lazymatch t with
  | match ?x with _ => _ end => head_scrutinee x
  | (match ?x with _ => _ end) _ => head_scrutinee x
  | negb ?b => b
  | _ => t
  end.

Ltac unfold_executor E :=
  cbv beta iota zeta delta
    [executor bind attempt await ret lift logger emit executeRundeckJob
     getPagerDutyIncidentList addNoteToPagerDutyIncident
     cbind read read_path print
     errorResult errorSlackProcess errorPagerDutyProcess] in E.

(** One step along a run [E : executor env o [] = (c, t)]: the next test
    the code makes is settled by a hypothesis, or computed when it is
    about the conversion error, or split. *)
Ltac step E :=
  cbv beta iota zeta in E; cbn [app negb to_string] in E;
  lazymatch type of E with
  | ?lhs = _ =>
      let c := lazymatch lhs with (?c, _) => c | _ => lhs end in
      let s := head_scrutinee c in
      lazymatch s with
      | Normal _ => fail
      | Abrupt _ => fail
      | _ =>
          first [ match goal with H : s = _ |- _ => rewrite H in E end
                | lazymatch s with
                  | context [conversionError] =>
                      let v := eval cbv in s in change s with v in E
                  end
                | destruct s eqn:? ]
      end
  end.

(** All the paths of a run, each with its completion and its trace. *)
Ltac run_paths env o :=
  let c := fresh "c" in
  let t := fresh "t" in
  let E := fresh "E" in
  unfold outcome, trace, run, provided in *;
  destruct (executor env o []) as [c t] eqn:E;
  cbn [fst snd] in *;
  unfold_executor E;
  repeat step E;
  cbv beta iota zeta in E; cbn [app negb to_string] in E;
  apply pair_equal_spec in E; destruct E as [<- <-].

(** [H : In e t] for an event [e] that the trace [t] does not hold. *)
Ltac not_in_trace H :=
  solve [ cbn [In] in H; intuition discriminate ].

(** [H : In e t]: one goal for each place where [t] may hold [e]. *)
Ltac in_trace H :=
  cbn [In] in H;
  repeat (destruct H as [H|H]; [try discriminate H|]);
  try contradiction.

(** A property chain that was read cannot fail on a prefix of it. *)
Ltac chain_read :=
  match goal with
  | H : get_path ?v (?k :: _) = Some _, H' : get_prop ?v ?k = None |- _ =>
      cbn [get_path] in H; rewrite H' in H; discriminate H
  end.

(** The goal runs the executor on options that differ from those of a path
    already walked: the walk's equations are replayed on it. *)
Ltac replay :=
  cbv beta iota zeta delta
    [executor bind attempt await ret lift logger emit executeRundeckJob
     getPagerDutyIncidentList addNoteToPagerDutyIncident
     cbind read read_path print
     errorResult errorSlackProcess errorPagerDutyProcess
     with_pdApiKey with_slack];
  cbn [actionId config secrets params rundeckBaseUrl rundeckApiVersion
       rundeckJobId headers rundeckApiToken pdApiKey slackWebhookUrl
       dedupKey alertName jobParams];
  repeat (cbv beta iota zeta; cbn [app negb to_string];
          first [ match goal with
                  | H : ?x = _ |- context [?x] => rewrite H
                  end
                | match goal with
                  | |- context [pagerDutyErrorMessage conversionError] =>
                      let v := eval cbv in
                                 (pagerDutyErrorMessage conversionError) in
                      change (pagerDutyErrorMessage conversionError) with v
                  | |- context [get_prop conversionError ?k] =>
                      let v := eval cbv in (get_prop conversionError k) in
                      change (get_prop conversionError k) with v
                  end ]);
  cbv beta iota zeta; cbn [app negb to_string].

(** ** Strings and headers *)

Lemma prefix_append (s rest : string) : String.prefix s (s ++ rest) = true.
Proof.
  induction s as [|c s IH]; cbn.
  - now destruct rest.
  - destruct (Ascii.ascii_dec c c); [exact IH | congruence].
Qed.

Lemma includes_here (s rest : string) : includes s (s ++ rest) = true.
Proof.
  pose proof (prefix_append s rest) as H.
  destruct (s ++ rest); cbn [includes]; rewrite H; reflexivity.
Qed.

Lemma includes_skip (s front rest : string) :
  includes s rest = true -> includes s (front ++ rest) = true.
Proof.
  intros H. induction front as [|c front IH]; cbn; [exact H|].
  rewrite IH. apply orb_true_r.
Qed.

Lemma endsWith_append (front s : string) : endsWith (front ++ s) s = true.
Proof.
  induction front as [|c front IH]; cbn.
  - destruct s; cbn [append endsWith]; rewrite String.eqb_refl; reflexivity.
  - rewrite IH. apply orb_true_r.
Qed.

Lemma lookup_assign (h : Headers) (k v : string) :
  lookup k (assign h k v) = Some v.
Proof.
  induction h as [|[k' v'] h IH]; cbn.
  - now rewrite String.eqb_refl.
  - destruct (String.eqb k k') eqn:E; cbn; rewrite E; [reflexivity | exact IH].
Qed.

Lemma last_snoc {A} (l : list A) (x d : A) : List.last (l ++ [x]) d = x.
Proof.
  induction l as [|y l IH]; [reflexivity|].
  cbn [app]. destruct (l ++ [x])%list eqn:E.
  - now destruct l.
  - cbn [List.last] in *. exact IH.
Qed.

(** ** Runs *)

(** Every run opens with the job-trigger call. *)
Lemma trace_opens_with_job_trigger env o :
  exists s rest,
    trace env o =
      AxiosPost
        (rundeckApiUrl (rundeckBaseUrl (config o)) (rundeckApiVersion (config o))
           (rundeckJobId (config o)))
        (jobParams (params o))
        (assign (headers_or_empty (headers (config o))) "X-Rundeck-Auth-Token"
           (rundeckApiToken (secrets o)))
        s :: rest.
Proof.
  run_paths env o; eauto.
Qed.

Lemma rundeckErrorMessage_throws err e :
  rundeckErrorMessage err = Abrupt e -> e = TypeError.
Proof.
  cbv [rundeckErrorMessage read read_path cbind].
  repeat match goal with
         | |- ?lhs = _ -> _ =>
             let s := head_scrutinee lhs in
             lazymatch s with
             | Normal _ => fail
             | Abrupt _ => fail
             | _ => destruct s
             end
         end; intros H; inversion H; reflexivity.
Qed.

Lemma pagerDutyErrorMessage_throws err e :
  pagerDutyErrorMessage err = Abrupt e ->
  get_prop e "name" = Some (JStr "TypeError").
Proof.
  cbv [pagerDutyErrorMessage read read_path print cbind].
  repeat match goal with
         | |- ?lhs = _ -> _ =>
             let s := head_scrutinee lhs in
             lazymatch s with
             | Normal _ => fail
             | Abrupt _ => fail
             | _ => destruct s
             end
         end; intros H; inversion H; reflexivity.
Qed.

(** Whatever the collaborators do, a returned result has one of the two
    shapes and an error result names the action; a run that returns no
    result ends in a thrown TypeError. *)
Lemma returned_error_names_action env o :
  match outcome env o with
  | Normal r => names_action (actionId o) r
  | Abrupt e => get_prop e "name" = Some (JStr "TypeError")
  end.
Proof.
  run_paths env o; try reflexivity; cbv [names_action successResult];
    try exact I.
  all: try match goal with
       | H : rundeckErrorMessage _ = Abrupt _ |- _ =>
           apply rundeckErrorMessage_throws in H; subst; reflexivity
       | H : pagerDutyErrorMessage _ = Abrupt _ |- _ =>
           apply pagerDutyErrorMessage_throws in H; exact H
       end.
  all: do 2 apply includes_skip; apply includes_here.
Qed.

Lemma endsWith_skip (front rest s : string) :
  endsWith rest s = true -> endsWith (front ++ rest) s = true.
Proof.
  intros H. induction front as [|c front IH]; cbn; [exact H|].
  rewrite IH. apply orb_true_r.
Qed.

Lemma get_prop_defined (v : JsVal) (k : string) :
  nullish v = false -> exists x, get_prop v k = Some x.
Proof. destruct v; cbn; intros H; try discriminate H; eauto. Qed.

Lemma in_remote_calls (e : Event) (t : Trace) :
  In e (remote_calls t) -> In e t.
Proof. intros H. apply filter_In in H. tauto. Qed.

(** ** The chat path *)

(** C8.  When [dedupKey] is absent, a webhook URL is configured and the
    webhook call succeeds, the executor has made two remote calls, the job
    trigger and the webhook, and returns [{status: 'ok', data}] where
    [data] is the body of the job trigger's response; what the webhook
    call resolved with is not used. *)
Theorem slack_success_returns_job_data env o url message x :
  provided (dedupKey (params o)) = false ->
  provided (slackWebhookUrl (secrets o)) = true ->
  In (WebhookSend url message (Resolved x)) (trace env o) ->
  exists jurl jbody jhdrs r data,
    remote_calls (trace env o) =
      [AxiosPost jurl jbody jhdrs (Resolved r);
       WebhookSend url message (Resolved x)]
    /\ get_prop r "data" = Some data
    /\ outcome env o = Normal (StatusOk data).
Proof.
  intros Hd Hs Hin.
  run_paths env o; try (not_in_trace Hin); try chain_read.
  in_trace Hin. injection Hin as <- <- <-.
  do 5 eexists. split; [reflexivity|]. split; [eassumption|reflexivity].
Qed.

Lemma slack_success_returns_job_data_witness :
  exists jurl jbody jhdrs r data,
    remote_calls
      (trace (ex_env_slack (Resolved (JStr "ok")))
         (ex_options None None (Some "https://hooks.example.com/T1"))) =
      [AxiosPost jurl jbody jhdrs (Resolved r);
       WebhookSend "https://hooks.example.com/T1"
         (slackMessage (Some "cpu high") "https://rundeck.example.com/e/7")
         (Resolved (JStr "ok"))]
    /\ get_prop r "data" = Some data
    /\ outcome (ex_env_slack (Resolved (JStr "ok")))
         (ex_options None None (Some "https://hooks.example.com/T1")) =
       Normal (StatusOk data).
Proof.
  apply (slack_success_returns_job_data
           (ex_env_slack (Resolved (JStr "ok")))
           (ex_options None None (Some "https://hooks.example.com/T1"))).
  - reflexivity.
  - reflexivity.
  - vm_compute. right. left. reflexivity.
Defined.

(** C10.  When the webhook call fails, the message of the returned error
    result embeds the [error] field of the thrown value, as a template
    literal prints it, whatever its [message] field holds; for a thrown
    value without an [error] field the message ends with "an error
    occurred while calling slack webhook: undefined". *)
Theorem slack_failure_embeds_error_field env o url message err error shown :
  In (WebhookSend url message (Rejected err)) (trace env o) ->
  get_prop err "error" = Some error ->
  to_string error = Some shown ->
  exists text,
    outcome env o = Normal (StatusError text)
    /\ text =
         "Invalid Response: an error occurred in rundeck action "
           ++ dquote ++ actionId o ++ dquote
           ++ ": an error occurred while calling slack webhook: "
           ++ shown
    /\ (error = JUndefined ->
        endsWith text
          "an error occurred while calling slack webhook: undefined" = true).
Proof.
  intros Hin Herr Hshown.
  run_paths env o; try (not_in_trace Hin).
  all: in_trace Hin; injection Hin as <- <- <-; try congruence.
  match goal with
  | H : to_string _ = Some ?s |- _ => assert (s = shown) as -> by congruence
  end.
  eexists. split; [reflexivity|]. split; [reflexivity|].
  intros ->. injection Hshown as <-.
  do 4 apply endsWith_skip. reflexivity.
Qed.

Lemma slack_failure_embeds_error_field_witness :
  exists text,
    outcome (ex_env_slack (Rejected ex_transportError))
      (ex_options None None (Some "https://hooks.example.com/T1")) =
      Normal (StatusError text)
    /\ text =
         "Invalid Response: an error occurred in rundeck action "
           ++ dquote ++ "a1" ++ dquote
           ++ ": an error occurred while calling slack webhook: undefined"
    /\ endsWith text
         "an error occurred while calling slack webhook: undefined" = true.
Proof.
  destruct (slack_failure_embeds_error_field
              (ex_env_slack (Rejected ex_transportError))
              (ex_options None None (Some "https://hooks.example.com/T1"))
              "https://hooks.example.com/T1"
              (slackMessage (Some "cpu high") "https://rundeck.example.com/e/7")
              ex_transportError JUndefined "undefined"
              (or_intror (or_introl eq_refl)) eq_refl eq_refl)
    as (text & Hout & Htext & Hends).
  exists text. split; [exact Hout|]. split; [exact Htext|].
  exact (Hends eq_refl).
Defined.
(** ** The incident path *)

(** C6.  When [dedupKey] is present and the incident-list query succeeds
    with an empty array of incidents, the executor returns an error result
    whose message says that the incident list requested by the key "is
    empty", and the only remote calls made are the job trigger and the
    incident-list query: no note is posted. *)
Theorem empty_incident_list_is_an_error env o k url hdrs resp :
  dedupKey (params o) = Some k ->
  In (AxiosGet url hdrs (Resolved resp)) (trace env o) ->
  get_path resp ["data"; "incidents"] = Some (JArr []) ->
  exists text jurl jbody jhdrs r,
    outcome env o = Normal (StatusError text)
    /\ text =
         "An error occurred while calling Pager Duty API in rundeck action "
           ++ dquote ++ actionId o ++ dquote
           ++ ": Pager Duty incident list requested by dedupKey(incident_key), "
           ++ dquote ++ k ++ dquote ++ ", is empty."
    /\ includes "is empty" text = true
    /\ remote_calls (trace env o) =
         [AxiosPost jurl jbody jhdrs (Resolved r);
          AxiosGet url hdrs (Resolved resp)].
Proof.
  intros Hk Hin Hempty.
  run_paths env o; try (not_in_trace Hin).
  all: in_trace Hin; injection Hin as <- <- <-.
  all: try congruence.
  all: match goal with
       | H : get_path _ ["data"; "incidents"] = Some ?x |- _ =>
           is_var x; assert (x = JArr []) as -> by congruence
       end.
  all: match goal with
       | H : get_prop (JArr []) "length" = _ |- _ =>
           cbn in H; try discriminate H; injection H as <-
       end.
  all: try match goal with H : truthy (JNum _) = true |- _ => discriminate H end.
  rewrite Hk. cbn [string_of_nullable].
  do 5 eexists. split; [reflexivity|]. split; [reflexivity|].
  split; [|reflexivity].
  do 9 apply includes_skip. reflexivity.
Qed.

Lemma empty_incident_list_is_an_error_witness :
  exists text jurl jbody jhdrs r,
    outcome (ex_env_pd (Resolved (ex_incidents [])) (Resolved JNull))
      (ex_options (Some "key-1") (Some "pd") None) = Normal (StatusError text)
    /\ text =
         "An error occurred while calling Pager Duty API in rundeck action "
           ++ dquote ++ "a1" ++ dquote
           ++ ": Pager Duty incident list requested by dedupKey(incident_key), "
           ++ dquote ++ "key-1" ++ dquote ++ ", is empty."
    /\ includes "is empty" text = true
    /\ remote_calls
         (trace (ex_env_pd (Resolved (ex_incidents [])) (Resolved JNull))
            (ex_options (Some "key-1") (Some "pd") None)) =
         [AxiosPost jurl jbody jhdrs (Resolved r);
          AxiosGet (pdIncidentListApiUrl "key-1")
            [("x-team", "ops"); ("authorization", "Token token=pd")]
            (Resolved (ex_incidents []))].
Proof.
  apply (empty_incident_list_is_an_error
           (ex_env_pd (Resolved (ex_incidents [])) (Resolved JNull))
           (ex_options (Some "key-1") (Some "pd") None) "key-1").
  - reflexivity.
  - vm_compute. right. left. reflexivity.
  - reflexivity.
Defined.

Lemma get_path_head (v x : JsVal) (k : string) (ks : list string) :
  get_path v (k :: ks) = Some x -> exists y, get_prop v k = Some y.
Proof. cbn [get_path]. destruct (get_prop v k); [eauto | discriminate]. Qed.

Lemma truthy_length_snoc {A} (init : list A) (x : A) :
  truthy (JNum (Z.of_nat (List.length (init ++ [x])))) = true.
Proof.
  rewrite length_app. cbn [List.length truthy].
  destruct (Z.eqb_spec (Z.of_nat (List.length init + 1)) 0); [lia | reflexivity].
Qed.

(** The run through the incident path once the incident list has come
    back with entries, for an incident id and a job link that can be
    printed: the last entry is popped, its [id] addresses the note, and
    the note carries the execution link. *)
Lemma incident_path env o url hdrs resp init inc id idText r link shownLink :
  In (AxiosGet url hdrs (Resolved resp)) (trace env o) ->
  get_path resp ["data"; "incidents"] = Some (JArr (init ++ [inc])) ->
  get_prop inc "id" = Some id ->
  to_string id = Some idText ->
  job_trigger (trace env o) = Some (Resolved r) ->
  get_path r ["data"; "permalink"] = Some link ->
  to_string link = Some shownLink ->
  exists jurl jbody jhdrs data s,
    get_prop r "data" = Some data
    /\ hdrs = assign (headers_or_empty (headers (config o))) "authorization"
                (pdAuthorization (pdApiKey (secrets o)))
    /\ remote_calls (trace env o) =
         [AxiosPost jurl jbody jhdrs (Resolved r);
          AxiosGet url hdrs (Resolved resp);
          AxiosPost (pdAddNoteApiUrl idText) (noteMessage shownLink) hdrs s]
    /\ (forall v,
          s = Resolved v ->
          prints_prop r "status" = true ->
          prints_prop r "statusText" = true ->
          outcome env o = Normal (StatusOk data)).
Proof.
  intros Hin Hlist Hid Hidtext Hjob Hlink Hshown.
  destruct (get_path_head _ _ _ _ Hlink) as [data Hdata].
  run_paths env o; try (not_in_trace Hin).
  all: cbn [job_trigger] in Hjob; injection Hjob as <-.
  all: in_trace Hin; injection Hin as <- <- <-.
  all: try congruence.
  all: match goal with
       | H : get_path _ ["data"; "incidents"] = Some ?x |- _ =>
           is_var x; assert (x = JArr (init ++ [inc])) as -> by congruence
       end.
  all: match goal with
       | H : get_prop (JArr _) "length" = _ |- _ =>
           cbn in H; try discriminate H; injection H as <-
       end.
  all: try match goal with
       | H : truthy (JNum _) = false |- _ =>
           rewrite truthy_length_snoc in H; discriminate H
       end.
  all: match goal with
       | H : pop (JArr _) = _ |- _ =>
           cbn [pop] in H; rewrite last_snoc in H;
           try discriminate H; injection H as <-
       end.
  all: try congruence.
  all: repeat match goal with
       | H : get_prop ?v ?k = Some ?x, H' : get_prop ?v ?k = Some ?y |- _ =>
           is_var x; assert (x = y) as -> by congruence; clear H
       | H : get_path ?v ?k = Some ?x, H' : get_path ?v ?k = Some ?y |- _ =>
           is_var x; assert (x = y) as -> by congruence; clear H
       end.
  all: try congruence.
  all: repeat match goal with
       | H : to_string ?v = Some ?x, H' : to_string ?v = Some ?y |- _ =>
           is_var x; assert (x = y) as -> by congruence; clear H
       end.
  all: try match goal with
       | H : get_prop ?v _ = Some _, H' : get_prop ?v _ = None |- _ =>
           destruct v; discriminate
       end.
  all: do 5 eexists; repeat split; try eassumption; try reflexivity.
  all: intros v Hv Hstatus Hstatustext; try discriminate Hv.
  all: unfold prints_prop, printable in *.
  all: repeat match goal with
       | H : get_prop ?v ?k = _, H' : context [get_prop ?v ?k] |- _ =>
           rewrite H in H'
       | H : to_string ?v = _, H' : context [to_string ?v] |- _ =>
           rewrite H in H'
       end.
  all: try discriminate.
  all: congruence.
Qed.
Lemma includes_self (s : string) : includes s s = true.
Proof.
  assert (String.prefix s s = true) as H.
  { induction s as [|c s IH]; cbn; [reflexivity|].
    destruct (Ascii.ascii_dec c c); [exact IH | congruence]. }
  destruct s; cbn [includes]; rewrite H; reflexivity.
Qed.

(** Past the job trigger, a present [dedupKey] leads straight to the
    incident-list request. *)
Lemma incident_list_requested env o r link :
  provided (dedupKey (params o)) = true ->
  job_trigger (trace env o) = Some (Resolved r) ->
  get_path r ["data"; "permalink"] = Some link ->
  exists jurl jbody jhdrs s after,
    remote_calls (trace env o) =
      AxiosPost jurl jbody jhdrs (Resolved r)
        :: AxiosGet
             (pdIncidentListApiUrl
                (string_of_nullable (dedupKey (params o))))
             (assign (headers_or_empty (headers (config o))) "authorization"
                (pdAuthorization (pdApiKey (secrets o))))
             s
        :: after.
Proof.
  intros Hd Hjob Hlink.
  run_paths env o; cbn [job_trigger] in Hjob; try discriminate Hjob.
  all: injection Hjob as <-; try congruence.
  all: do 5 eexists; reflexivity.
Qed.

(** C7, as the code has it.  When [dedupKey] is present, the incident
    list comes back with entries, the last entry has an [id] that can be
    printed and the job's execution link can be printed, the executor
    takes the last entry of the list as the incident and posts to
    [/incidents/<id>/notes] of that entry a note whose content contains
    the text of the link; when the note-post succeeds and the job
    response's status line can be printed for the log, it returns
    [{status: 'ok', data}] with the body of the job trigger's response as
    [data]. *)
Theorem note_posted_to_last_incident
    env o k url hdrs resp init inc id idText r link shownLink :
  dedupKey (params o) = Some k ->
  In (AxiosGet url hdrs (Resolved resp)) (trace env o) ->
  get_path resp ["data"; "incidents"] = Some (JArr (init ++ [inc])) ->
  get_prop inc "id" = Some id ->
  to_string id = Some idText ->
  job_trigger (trace env o) = Some (Resolved r) ->
  get_path r ["data"; "permalink"] = Some link ->
  to_string link = Some shownLink ->
  exists jurl jbody jhdrs data nhdrs s content,
    get_prop r "data" = Some data
    /\ remote_calls (trace env o) =
         [AxiosPost jurl jbody jhdrs (Resolved r);
          AxiosGet url hdrs (Resolved resp);
          AxiosPost
            ("https://api.pagerduty.com/incidents/" ++ idText ++ "/notes")
            (JObj [("note", JObj [("content", JStr content)])])
            nhdrs s]
    /\ includes shownLink content = true
    /\ (forall v,
          s = Resolved v ->
          prints_prop r "status" = true ->
          prints_prop r "statusText" = true ->
          outcome env o = Normal (StatusOk data)).
Proof.
  intros _ Hin Hlist Hid Hidtext Hjob Hlink Hshown.
  destruct (incident_path env o url hdrs resp init inc id idText r link
              shownLink Hin Hlist Hid Hidtext Hjob Hlink Hshown)
    as (jurl & jbody & jhdrs & data & s & Hdata & _ & Hcalls & Hok).
  exists jurl, jbody, jhdrs, data, hdrs, s, (linkText shownLink).
  repeat split; try assumption.
  unfold linkText. apply includes_skip, includes_self.
Qed.

Lemma note_posted_to_last_incident_witness :
  exists jurl jbody jhdrs nhdrs,
    remote_calls
      (trace
         (ex_env_pd
            (Resolved (ex_incidents [ex_incident "P1"; ex_incident "P2"]))
            (Resolved JNull))
         (ex_options (Some "key-1") (Some "pd") None)) =
      [AxiosPost jurl jbody jhdrs (Resolved ex_jobResponse);
       AxiosGet (pdIncidentListApiUrl "key-1")
         [("x-team", "ops"); ("authorization", "Token token=pd")]
         (Resolved (ex_incidents [ex_incident "P1"; ex_incident "P2"]));
       AxiosPost "https://api.pagerduty.com/incidents/P2/notes"
         (JObj
            [("note",
              JObj
                [("content",
                  JStr
                    "Rundeck job for the alert is triggered. Link: https://rundeck.example.com/e/7")])])
         nhdrs (Resolved JNull)]
    /\ outcome
         (ex_env_pd
            (Resolved (ex_incidents [ex_incident "P1"; ex_incident "P2"]))
            (Resolved JNull))
         (ex_options (Some "key-1") (Some "pd") None) =
       Normal (StatusOk ex_jobData).
Proof.
  destruct (note_posted_to_last_incident
              (ex_env_pd
                 (Resolved (ex_incidents [ex_incident "P1"; ex_incident "P2"]))
                 (Resolved JNull))
              (ex_options (Some "key-1") (Some "pd") None) "key-1"
              (pdIncidentListApiUrl "key-1")
              [("x-team", "ops"); ("authorization", "Token token=pd")]
              (ex_incidents [ex_incident "P1"; ex_incident "P2"])
              [ex_incident "P1"] (ex_incident "P2") (JStr "P2") "P2"
              ex_jobResponse (JStr "https://rundeck.example.com/e/7")
              "https://rundeck.example.com/e/7"
              eq_refl (or_intror (or_introl eq_refl)) eq_refl eq_refl eq_refl
              eq_refl eq_refl eq_refl)
    as (jurl & jbody & jhdrs & data & nhdrs & s & content
        & Hdata & Hcalls & Hcontent & Hok).
  pose proof Hcalls as Hc. vm_compute in Hc.
  injection Hc; intros Hs Hnhdrs Hcont Hjhdrs Hjbody Hjurl; subst.
  do 4 eexists. split; [exact Hcalls|].
  vm_compute in Hdata. injection Hdata as <-.
  exact (Hok JNull eq_refl eq_refl eq_refl).
Defined.

(** C7 as stated fails: the incident list comes back with one entry, but
    the entry's [id] is an object that cannot be turned into the URL.
    Building the URL throws inside the [try], no note is posted, and the
    run returns an error result. *)
Lemma note_not_posted_for_unprintable_id :
  dedupKey (params (ex_options (Some "key-1") (Some "pd") None)) = Some "key-1"
  /\ remote_calls
       (trace
          (ex_env_pd
             (Resolved (ex_incidents [JObj [("id", ex_unprintable)]]))
             (Resolved JNull))
          (ex_options (Some "key-1") (Some "pd") None)) =
     [AxiosPost "https://rundeck.example.com/api/24/job/job-1/executions"
        JUndefined [("x-team", "ops"); ("X-Rundeck-Auth-Token", "tok")]
        (Resolved ex_jobResponse);
      AxiosGet (pdIncidentListApiUrl "key-1")
        [("x-team", "ops"); ("authorization", "Token token=pd")]
        (Resolved (ex_incidents [JObj [("id", ex_unprintable)]]))]
  /\ outcome
       (ex_env_pd
          (Resolved (ex_incidents [JObj [("id", ex_unprintable)]]))
          (Resolved JNull))
       (ex_options (Some "key-1") (Some "pd") None) =
     Normal
       (StatusError
          ("An error occurred while calling Pager Duty API in rundeck action "
             ++ dquote ++ "a1" ++ dquote
             ++ ": Cannot convert object to primitive value")).
Proof. repeat split. Qed.

(** C9, as the code has it.  A [null] [pdApiKey] is not checked for:
    with [dedupKey] present, once the job is triggered and its link read,
    the executor issues the incident-list request with the header
    [authorization: Token token=null]; no result is returned before that
    call.  When the list comes back with entries, the last entry's [id]
    can be printed and so can the link, it posts the note with that same
    header. *)
Theorem null_pdApiKey_is_sent env o k r link :
  dedupKey (params o) = Some k ->
  provided (dedupKey (params o)) = true ->
  pdApiKey (secrets o) = None ->
  job_trigger (trace env o) = Some (Resolved r) ->
  get_path r ["data"; "permalink"] = Some link ->
  exists jurl jbody jhdrs lhdrs s after,
    remote_calls (trace env o) =
      AxiosPost jurl jbody jhdrs (Resolved r)
        :: AxiosGet (pdIncidentListApiUrl k) lhdrs s :: after
    /\ lookup "authorization" lhdrs = Some "Token token=null"
    /\ (forall resp init inc id idText shownLink,
          s = Resolved resp ->
          get_path resp ["data"; "incidents"] = Some (JArr (init ++ [inc])) ->
          get_prop inc "id" = Some id ->
          to_string id = Some idText ->
          to_string link = Some shownLink ->
          exists nhdrs ns,
            after = [AxiosPost (pdAddNoteApiUrl idText) (noteMessage shownLink)
                       nhdrs ns]
            /\ lookup "authorization" nhdrs = Some "Token token=null").
Proof.
  intros Hk Hd Hpd Hjob Hlink.
  destruct (incident_list_requested env o r link Hd Hjob Hlink)
    as (jurl & jbody & jhdrs & s & after & Hcalls).
  rewrite Hk, Hpd in Hcalls. cbn [string_of_nullable] in Hcalls.
  do 6 eexists. split; [exact Hcalls|].
  split; [apply lookup_assign|].
  intros resp init inc id idText shownLink -> Hlist Hid Hidtext Hshown.
  assert (In (AxiosGet (pdIncidentListApiUrl k)
                (assign (headers_or_empty (headers (config o)))
                   "authorization" (pdAuthorization None))
                (Resolved resp)) (trace env o)) as Hin.
  { apply in_remote_calls. rewrite Hcalls. right. left. reflexivity. }
  destruct (incident_path env o _ _ resp init inc id idText r link shownLink
              Hin Hlist Hid Hidtext Hjob Hlink Hshown)
    as (jurl' & jbody' & jhdrs' & data & ns & _ & _ & Hcalls' & _).
  rewrite Hcalls in Hcalls'.
  injection Hcalls' as _ _ _ Hafter.
  eexists. exists ns.
  split; [exact Hafter|]. apply lookup_assign.
Qed.

Lemma null_pdApiKey_is_sent_witness :
  exists jurl jbody jhdrs lhdrs nhdrs,
    remote_calls
      (trace
         (ex_env_pd
            (Resolved (ex_incidents [ex_incident "P1"; ex_incident "P2"]))
            (Resolved JNull))
         (ex_options (Some "key-1") None None)) =
      [AxiosPost jurl jbody jhdrs (Resolved ex_jobResponse);
       AxiosGet (pdIncidentListApiUrl "key-1") lhdrs
         (Resolved (ex_incidents [ex_incident "P1"; ex_incident "P2"]));
       AxiosPost (pdAddNoteApiUrl "P2")
         (noteMessage "https://rundeck.example.com/e/7")
         nhdrs (Resolved JNull)]
    /\ lookup "authorization" lhdrs = Some "Token token=null"
    /\ lookup "authorization" nhdrs = Some "Token token=null".
Proof.
  destruct (null_pdApiKey_is_sent
              (ex_env_pd
                 (Resolved (ex_incidents [ex_incident "P1"; ex_incident "P2"]))
                 (Resolved JNull))
              (ex_options (Some "key-1") None None) "key-1" ex_jobResponse
              (JStr "https://rundeck.example.com/e/7")
              eq_refl eq_refl eq_refl eq_refl eq_refl)
    as (jurl & jbody & jhdrs & lhdrs & s & after & Hcalls & Hlist & Hnote).
  pose proof Hcalls as Hc. vm_compute in Hc.
  injection Hc; intros Hafter Hs Hlhdrs Hjhdrs Hjbody Hjurl.
  destruct (Hnote (ex_incidents [ex_incident "P1"; ex_incident "P2"])
              [ex_incident "P1"] (ex_incident "P2") (JStr "P2") "P2"
              "https://rundeck.example.com/e/7"
              (eq_sym Hs) eq_refl eq_refl eq_refl eq_refl)
    as (nhdrs & ns & Hnotes & Hauth).
  rewrite Hnotes in Hafter. vm_compute in Hafter.
  injection Hafter; intros Hns _.
  exists jurl, jbody, jhdrs, lhdrs, nhdrs.
  split; [|split; assumption].
  rewrite Hcalls, Hnotes, <- Hs, <- Hns. reflexivity.
Defined.

(** C9 as stated fails in its second part: with a [null] [pdApiKey] the
    incident list is requested and comes back with one entry, but the
    entry's [id] cannot be turned into the URL, and the note-post request
    is not issued: the run's remote calls are the job trigger and the
    incident-list request. *)
Lemma null_pdApiKey_note_not_posted :
  pdApiKey (secrets (ex_options (Some "key-1") None None)) = None
  /\ provided (dedupKey (params (ex_options (Some "key-1") None None))) = true
  /\ remote_calls
       (trace
          (ex_env_pd
             (Resolved
                (ex_incidents [ex_incident "P1"; JObj [("id", ex_unprintable)]]))
             (Resolved JNull))
          (ex_options (Some "key-1") None None)) =
     [AxiosPost "https://rundeck.example.com/api/24/job/job-1/executions"
        JUndefined [("x-team", "ops"); ("X-Rundeck-Auth-Token", "tok")]
        (Resolved ex_jobResponse);
      AxiosGet (pdIncidentListApiUrl "key-1")
        [("x-team", "ops"); ("authorization", "Token token=null")]
        (Resolved
           (ex_incidents [ex_incident "P1"; JObj [("id", ex_unprintable)]]))].
Proof. repeat split. Qed.

(** ** The job trigger *)

(** C4, as the code has it.  When the job-trigger call fails, it is the
    only remote call of the run: neither Pager Duty nor the webhook is
    called.  When the catch block can read the failure's message (a
    transport error without a response, or a response with a body) and
    print it, the executor returns an error result whose message is
    "Invalid Response: an error occurred in rundeck action "<actionId>"
    calling a rundeck job: <message>": it mentions "calling a rundeck
    job". *)
Theorem job_failure_stops_the_run env o err :
  job_trigger (trace env o) = Some (Rejected err) ->
  (exists jurl jbody jhdrs,
     remote_calls (trace env o) = [AxiosPost jurl jbody jhdrs (Rejected err)])
  /\ (forall message shown,
        rundeckErrorMessage err = Normal message ->
        to_string message = Some shown ->
        exists text,
          outcome env o = Normal (StatusError text)
          /\ text =
               "Invalid Response: an error occurred in rundeck action "
                 ++ dquote ++ actionId o ++ dquote
                 ++ " calling a rundeck job: " ++ shown
          /\ includes "calling a rundeck job" text = true).
Proof.
  intros Hjob.
  run_paths env o; cbn [job_trigger] in Hjob; try discriminate Hjob.
  all: injection Hjob as <-.
  all: split; [do 3 eexists; reflexivity|].
  all: intros message shown Hm Hshown; try congruence.
  all: match goal with
       | H : rundeckErrorMessage _ = Normal ?x |- _ =>
           assert (x = message) as -> by congruence
       end.
  all: try congruence.
  match goal with
  | H : to_string message = Some ?x |- _ =>
      is_var x; assert (x = shown) as -> by congruence
  end.
  eexists. split; [reflexivity|]. split; [reflexivity|].
  do 4 apply includes_skip.
  change (includes "calling a rundeck job"
            (" " ++ "calling a rundeck job" ++ ": " ++ shown) = true).
  apply includes_skip, includes_here.
Qed.

Lemma job_failure_stops_the_run_witness :
  (exists jurl jbody jhdrs,
     remote_calls
       (trace (ex_env_job (Rejected ex_transportError))
          (ex_options None None None)) =
     [AxiosPost jurl jbody jhdrs (Rejected ex_transportError)])
  /\ exists text,
       outcome (ex_env_job (Rejected ex_transportError))
         (ex_options None None None) = Normal (StatusError text)
       /\ text =
            "Invalid Response: an error occurred in rundeck action "
              ++ dquote ++ "a1" ++ dquote
              ++ " calling a rundeck job: " ++ "connect ECONNREFUSED"
       /\ includes "calling a rundeck job" text = true.
Proof.
  destruct (job_failure_stops_the_run
              (ex_env_job (Rejected ex_transportError))
              (ex_options None None None) ex_transportError eq_refl)
    as [Hcalls Hmessage].
  split; [exact Hcalls|].
  exact (Hmessage (JStr "connect ECONNREFUSED") "connect ECONNREFUSED"
           eq_refl eq_refl).
Defined.

(** C4 as stated fails: the job trigger is refused, and the message of the
    error result, "... calling a rundeck job: connect ECONNREFUSED", has
    no "calling a job" in it. *)
Lemma job_failure_message_lacks_calling_a_job :
  job_trigger
    (trace (ex_env_job (Rejected ex_transportError))
       (ex_options None None None)) = Some (Rejected ex_transportError)
  /\ ~ (exists text,
          outcome (ex_env_job (Rejected ex_transportError))
            (ex_options None None None) = Normal (StatusError text)
          /\ includes "calling a job" text = true).
Proof.
  split; [reflexivity|].
  intros (text & Hout & Hinc).
  vm_compute in Hout. injection Hout as <-.
  vm_compute in Hinc. discriminate Hinc.
Qed.

(** C5, as the code has it.  When [dedupKey] is absent and no webhook URL
    is configured, the job trigger is the only remote call of the run,
    and once the job's link is read the executor returns an error result
    whose message is "Invalid Response: an error occurred in rundeck
    action "<actionId>": Neither of dedupKey nor slackWebhookUrl are
    provided, failed to send message to PagerDuty incident or slack
    channel.", which mentions both [dedupKey] and [slackWebhookUrl]. *)
Theorem neither_channel_is_an_error env o r :
  provided (dedupKey (params o)) = false ->
  provided (slackWebhookUrl (secrets o)) = false ->
  job_trigger (trace env o) = Some (Resolved r) ->
  (exists jurl jbody jhdrs,
     remote_calls (trace env o) = [AxiosPost jurl jbody jhdrs (Resolved r)])
  /\ (forall link,
        get_path r ["data"; "permalink"] = Some link ->
        exists text,
          outcome env o = Normal (StatusError text)
          /\ text =
               "Invalid Response: an error occurred in rundeck action "
                 ++ dquote ++ actionId o ++ dquote
                 ++ ": Neither of dedupKey nor slackWebhookUrl are provided, failed to send message to PagerDuty incident or slack channel."
          /\ includes "dedupKey" text = true
          /\ includes "slackWebhookUrl" text = true).
Proof.
  intros Hd Hs Hjob.
  run_paths env o; cbn [job_trigger] in Hjob; try discriminate Hjob.
  all: injection Hjob as <-.
  all: split; [do 3 eexists; reflexivity|].
  all: intros link Hlink; try congruence.
  eexists. split; [reflexivity|]. split; [reflexivity|].
  split; do 5 apply includes_skip; reflexivity.
Qed.

Lemma neither_channel_is_an_error_witness :
  (exists jurl jbody jhdrs,
     remote_calls
       (trace (ex_env_job (Resolved ex_jobResponse))
          (ex_options None None None)) =
     [AxiosPost jurl jbody jhdrs (Resolved ex_jobResponse)])
  /\ exists text,
       outcome (ex_env_job (Resolved ex_jobResponse))
         (ex_options None None None) = Normal (StatusError text)
       /\ text =
            "Invalid Response: an error occurred in rundeck action "
              ++ dquote ++ "a1" ++ dquote
              ++ ": Neither of dedupKey nor slackWebhookUrl are provided, failed to send message to PagerDuty incident or slack channel."
       /\ includes "dedupKey" text = true
       /\ includes "slackWebhookUrl" text = true.
Proof.
  destruct (neither_channel_is_an_error
              (ex_env_job (Resolved ex_jobResponse))
              (ex_options None None None) ex_jobResponse
              eq_refl eq_refl eq_refl)
    as [Hcalls Hmessage].
  split; [exact Hcalls|].
  exact (Hmessage (JStr "https://rundeck.example.com/e/7") eq_refl).
Defined.

(** C5 as stated fails: with neither channel configured, the message of
    the error result is not "Neither of dedupKey nor slackWebhookUrl are
    provided, failed to send message.", and does not contain it. *)
Lemma neither_channel_message_differs :
  provided (dedupKey (params (ex_options None None None))) = false
  /\ provided (slackWebhookUrl (secrets (ex_options None None None))) = false
  /\ job_trigger
       (trace (ex_env_job (Resolved ex_jobResponse))
          (ex_options None None None)) = Some (Resolved ex_jobResponse)
  /\ outcome (ex_env_job (Resolved ex_jobResponse))
       (ex_options None None None) <>
     Normal
       (StatusError
          "Neither of dedupKey nor slackWebhookUrl are provided, failed to send message.")
  /\ ~ (exists text,
          outcome (ex_env_job (Resolved ex_jobResponse))
            (ex_options None None None) = Normal (StatusError text)
          /\ includes
               "Neither of dedupKey nor slackWebhookUrl are provided, failed to send message."
               text = true).
Proof.
  repeat split; try reflexivity.
  - vm_compute. discriminate.
  - intros (text & Hout & Hinc).
    vm_compute in Hout. injection Hout as <-.
    vm_compute in Hinc. discriminate Hinc.
Qed.

(** ** Where the catch blocks fall short *)

(** C1.  The result is not always one of the two shapes.  The job is
    triggered, the incident is found, and the note-post is answered
    502 with a body that is not Pager Duty's JSON (a gateway's page): the
    catch block reads [err.response.data.error.message], [data.error] is
    undefined, and the run ends in a TypeError instead of an error
    result.  (Whenever a result is returned it does have one of the two
    shapes and names the action, see [returned_error_names_action].) *)
Theorem pagerduty_note_error_without_body_throws :
  outcome
    (ex_env_pd (Resolved (ex_incidents [ex_incident "P1"]))
       (Rejected (ex_httpError 502 (JStr "Bad Gateway"))))
    (ex_options (Some "key-1") (Some "pd") None) = Abrupt TypeError.
Proof. reflexivity. Qed.

(** C2.  The executor does throw to its caller.  Each of these runs ends
    in a TypeError that nothing catches: the incident list is answered
    502 with a body without [error], and the catch block reads
    [data.error.message]; the job trigger fails with a response without a
    body, and the catch block reads [data.message]; the job trigger
    succeeds with a response without a body, and [data.permalink] is read
    outside any [try]. *)
Theorem malformed_responses_throw :
  outcome
    (ex_env_pd (Rejected (ex_httpError 502 (JStr "Bad Gateway")))
       (Resolved JNull))
    (ex_options (Some "key-1") (Some "pd") None) = Abrupt TypeError
  /\ outcome (ex_env_job (Rejected (ex_httpError 500 JUndefined)))
       (ex_options None None (Some "https://hooks.example.com/T1")) =
     Abrupt TypeError
  /\ outcome (ex_env_job (Resolved (JObj [("status", JNum 204)])))
       (ex_options None None (Some "https://hooks.example.com/T1")) =
     Abrupt TypeError.
Proof. repeat split. Qed.

(** C3.  The note-post is answered 404 with Pager Duty's structured
    error.  The catch block builds "404 Not Found" from the response and
    logs it, but passes [err.message], the transport text, to the error
    result.  The same failure of the incident-list request is reported
    with the structured detail. *)
Theorem note_failure_reports_transport_text :
  pagerDutyErrorMessage ex_notFound = Normal (JStr "404 Not Found")
  /\ outcome
       (ex_env_pd (Resolved (ex_incidents [ex_incident "P1"]))
          (Rejected ex_notFound))
       (ex_options (Some "key-1") (Some "pd") None) =
     Normal
       (StatusError
          ("An error occurred while calling Pager Duty API in rundeck action "
             ++ dquote ++ "a1" ++ dquote
             ++ ": Request failed with status code 404"))
  /\ includes "404 Not Found"
       ("An error occurred while calling Pager Duty API in rundeck action "
          ++ dquote ++ "a1" ++ dquote
          ++ ": Request failed with status code 404") = false
  /\ In (Log Warn
           "error on a1 rundeck action: an error occurred while calling pager duty API: 404 Not Found")
        (trace
           (ex_env_pd (Resolved (ex_incidents [ex_incident "P1"]))
              (Rejected ex_notFound))
           (ex_options (Some "key-1") (Some "pd") None))
  /\ outcome (ex_env_pd (Rejected ex_notFound) (Resolved JNull))
       (ex_options (Some "key-1") (Some "pd") None) =
     Normal
       (StatusError
          ("An error occurred while calling Pager Duty API in rundeck action "
             ++ dquote ++ "a1" ++ dquote ++ ": 404 Not Found")).
Proof.
  repeat split.
  vm_compute. do 4 right. left. reflexivity.
Qed.

(** ** The job-trigger request *)

Lemma slice_0_m1_snoc (s : string) (c : ascii) :
  slice_0_m1 (s ++ String c EmptyString) = s.
Proof.
  induction s as [|a s IH]; [reflexivity|].
  cbn [append slice_0_m1].
  destruct (s ++ String c EmptyString) eqn:E.
  - destruct s; discriminate E.
  - rewrite IH. reflexivity.
Qed.

Lemma lookup_assign_other (h : Headers) (k k' v : string) :
  k <> k' -> lookup k (assign h k' v) = lookup k h.
Proof.
  intros Hk. induction h as [|[k0 v0] h IH]; cbn.
  - destruct (String.eqb_spec k k'); [contradiction | reflexivity].
  - destruct (String.eqb_spec k' k0) as [->|Hne]; cbn.
    + destruct (String.eqb_spec k k0); [contradiction | reflexivity].
    + rewrite IH. reflexivity.
Qed.

(** X1.  One trailing slash of the base URL is dropped before the API
    path is appended: for a base [b ++ "/"] the job-trigger URL is
    [b/api/<version>/job/<jobId>/executions]. *)
Theorem rundeckApiUrl_drops_trailing_slash (b : string) (v : Z) (jobId : string) :
  rundeckApiUrl (b ++ "/") v jobId =
    b ++ "/api/" ++ string_of_Z v ++ "/job/" ++ jobId ++ "/executions".
Proof.
  unfold rundeckApiUrl.
  rewrite endsWith_append, slice_0_m1_snoc. reflexivity.
Qed.

(** X2.  A base URL gives the same job-trigger URL with and without its
    trailing slash. *)
Theorem rundeckApiUrl_ignores_trailing_slash (b : string) (v : Z) (jobId : string) :
  endsWith b "/" = false ->
  rundeckApiUrl (b ++ "/") v jobId = rundeckApiUrl b v jobId.
Proof.
  intros H. rewrite rundeckApiUrl_drops_trailing_slash.
  unfold rundeckApiUrl. rewrite H. reflexivity.
Qed.

Lemma rundeckApiUrl_ignores_trailing_slash_witness :
  rundeckApiUrl ("https://rundeck.example.com" ++ "/") 24 "job-1" =
  rundeckApiUrl "https://rundeck.example.com" 24 "job-1".
Proof.
  apply (rundeckApiUrl_ignores_trailing_slash
           "https://rundeck.example.com" 24 "job-1").
  reflexivity.
Defined.

(** X3.  The job trigger is the first thing a run does.  It is posted to
    the job's executions URL with [jobParams] as body; its headers hold
    the API token under [X-Rundeck-Auth-Token], whatever the configured
    headers say under that name, and every other configured header
    unchanged. *)
Theorem job_trigger_request env o :
  exists hdrs s rest,
    trace env o =
      AxiosPost
        (rundeckApiUrl (rundeckBaseUrl (config o)) (rundeckApiVersion (config o))
           (rundeckJobId (config o)))
        (jobParams (params o)) hdrs s :: rest
    /\ lookup "X-Rundeck-Auth-Token" hdrs = Some (rundeckApiToken (secrets o))
    /\ forall k,
         k <> "X-Rundeck-Auth-Token" ->
         lookup k hdrs = lookup k (headers_or_empty (headers (config o))).
Proof.
  destruct (trace_opens_with_job_trigger env o) as (s & rest & H).
  do 3 eexists. split; [exact H|].
  split; [apply lookup_assign|].
  intros k Hk. apply lookup_assign_other, Hk.
Qed.

(** ** The shape of a run *)

(** X4.  A run makes the job trigger and then at most one notification:
    nothing more, or the webhook call, or the incident-list request alone,
    or the incident-list request followed by the note-post.  Nothing is
    called twice, and nothing follows a job trigger or an incident-list
    request that failed. *)
Theorem remote_calls_shape env o :
  exists jurl jbody jhdrs js,
    remote_calls (trace env o) = [AxiosPost jurl jbody jhdrs js]
    \/ (exists r wurl wmsg ws,
          js = Resolved r
          /\ remote_calls (trace env o) =
               [AxiosPost jurl jbody jhdrs js; WebhookSend wurl wmsg ws])
    \/ (exists r gurl ghdrs gs,
          js = Resolved r
          /\ remote_calls (trace env o) =
               [AxiosPost jurl jbody jhdrs js; AxiosGet gurl ghdrs gs])
    \/ (exists r gurl ghdrs resp nurl nbody nhdrs ns,
          js = Resolved r
          /\ remote_calls (trace env o) =
               [AxiosPost jurl jbody jhdrs js;
                AxiosGet gurl ghdrs (Resolved resp);
                AxiosPost nurl nbody nhdrs ns]).
Proof.
  run_paths env o; do 4 eexists; cbn [remote_calls filter is_remote].
  all: first
         [ left; reflexivity
         | right; left; do 4 eexists; split; reflexivity
         | right; right; left; do 4 eexists; split; reflexivity
         | right; right; right; do 8 eexists; split; reflexivity ].
Qed.

(** X5.  [{status: 'ok'}] is returned only when the job was triggered and
    the notification went through: the run's last remote call is a
    webhook call or a note-post that resolved, and [data] is the body of
    the job trigger's response. *)
Theorem ok_means_notified env o data :
  outcome env o = Normal (StatusOk data) ->
  exists jurl jbody jhdrs r,
    get_prop r "data" = Some data
    /\ ((exists wurl wmsg x,
           remote_calls (trace env o) =
             [AxiosPost jurl jbody jhdrs (Resolved r);
              WebhookSend wurl wmsg (Resolved x)])
        \/ (exists gurl ghdrs resp nurl nbody nhdrs x,
              remote_calls (trace env o) =
                [AxiosPost jurl jbody jhdrs (Resolved r);
                 AxiosGet gurl ghdrs (Resolved resp);
                 AxiosPost nurl nbody nhdrs (Resolved x)])).
Proof.
  intros Hok.
  run_paths env o; try discriminate Hok.
  all: injection Hok as <-.
  all: do 4 eexists; (split; [eassumption|]).
  all: cbn [remote_calls filter is_remote].
  all: first [ left; do 3 eexists; reflexivity
             | right; do 7 eexists; reflexivity ].
Qed.

Lemma ok_means_notified_witness :
  exists jurl jbody jhdrs r,
    get_prop r "data" = Some ex_jobData
    /\ ((exists wurl wmsg x,
           remote_calls
             (trace (ex_env_slack (Resolved (JStr "ok")))
                (ex_options None None (Some "https://hooks.example.com/T1"))) =
             [AxiosPost jurl jbody jhdrs (Resolved r);
              WebhookSend wurl wmsg (Resolved x)])
        \/ (exists gurl ghdrs resp nurl nbody nhdrs x,
              remote_calls
                (trace (ex_env_slack (Resolved (JStr "ok")))
                   (ex_options None None (Some "https://hooks.example.com/T1"))) =
                [AxiosPost jurl jbody jhdrs (Resolved r);
                 AxiosGet gurl ghdrs (Resolved resp);
                 AxiosPost nurl nbody nhdrs (Resolved x)])).
Proof.
  apply (ok_means_notified
           (ex_env_slack (Resolved (JStr "ok")))
           (ex_options None None (Some "https://hooks.example.com/T1"))
           ex_jobData).
  reflexivity.
Defined.

(** X6.  A run that logs a warning does not return [{status: 'ok'}]. *)
Theorem warned_runs_are_not_ok env o text data :
  In (Log Warn text) (trace env o) ->
  outcome env o <> Normal (StatusOk data).
Proof.
  intros Hin Hok.
  run_paths env o; try discriminate Hok.
  all: not_in_trace Hin.
Qed.

Lemma warned_runs_are_not_ok_witness :
  outcome (ex_env_job (Rejected ex_transportError)) (ex_options None None None)
    <> Normal (StatusOk JNull).
Proof.
  apply (warned_runs_are_not_ok
           (ex_env_job (Rejected ex_transportError))
           (ex_options None None None)
           "Error on a1 rundeck action: connect ECONNREFUSED" JNull).
  vm_compute. right. left. reflexivity.
Defined.

(** ** What is sent to the webhook and to Pager Duty *)

Lemma provided_some (x : option string) :
  provided x = true -> exists s, x = Some s /\ s <> EmptyString.
Proof.
  destruct x as [s|]; cbn; [|discriminate].
  intros H. exists s. split; [reflexivity|].
  intros ->. discriminate H.
Qed.

(** X7.  The webhook is called only when [dedupKey] is absent (or empty)
    and a webhook URL is configured, after a job trigger that succeeded
    with a link that can be printed.  It is sent to the configured URL;
    the payload's [text] is the alert name and its one attachment says
    "Rundeck job for the alert is triggered. Link: " followed by the
    job's permalink. *)
Theorem webhook_call env o url message s :
  In (WebhookSend url message s) (trace env o) ->
  provided (dedupKey (params o)) = false
  /\ slackWebhookUrl (secrets o) = Some url
  /\ url <> EmptyString
  /\ exists r link shown,
       job_trigger (trace env o) = Some (Resolved r)
       /\ get_path r ["data"; "permalink"] = Some link
       /\ to_string link = Some shown
       /\ message =
            JObj [("text", of_nullable (alertName (params o)));
                  ("attachments",
                   JArr [JObj [("text",
                                JStr ("Rundeck job for the alert is triggered. Link: "
                                        ++ shown))]])].
Proof.
  intros Hin.
  run_paths env o; try (not_in_trace Hin).
  all: in_trace Hin; injection Hin as <- <- <-.
  all: match goal with
       | H : truthy (of_nullable (slackWebhookUrl _)) = true |- _ =>
           destruct (provided_some _ H) as (hook & -> & Hhook)
       end.
  all: repeat split; try assumption; do 3 eexists; repeat split; eassumption.
Qed.

Lemma webhook_call_witness :
  provided (dedupKey (params (ex_options None None (Some "https://hooks.example.com/T1")))) = false
  /\ slackWebhookUrl (secrets (ex_options None None (Some "https://hooks.example.com/T1")))
     = Some "https://hooks.example.com/T1"
  /\ "https://hooks.example.com/T1" <> EmptyString
  /\ exists r link shown,
       job_trigger
         (trace (ex_env_slack (Resolved (JStr "ok")))
            (ex_options None None (Some "https://hooks.example.com/T1"))) =
         Some (Resolved r)
       /\ get_path r ["data"; "permalink"] = Some link
       /\ to_string link = Some shown
       /\ slackMessage (Some "cpu high") "https://rundeck.example.com/e/7" =
            JObj [("text", of_nullable
                             (alertName
                                (params
                                   (ex_options None None
                                      (Some "https://hooks.example.com/T1")))));
                  ("attachments",
                   JArr [JObj [("text",
                                JStr ("Rundeck job for the alert is triggered. Link: "
                                        ++ shown))]])].
Proof.
  apply (webhook_call
           (ex_env_slack (Resolved (JStr "ok")))
           (ex_options None None (Some "https://hooks.example.com/T1"))
           "https://hooks.example.com/T1"
           (slackMessage (Some "cpu high") "https://rundeck.example.com/e/7")
           (Resolved (JStr "ok"))).
  vm_compute. right. left. reflexivity.
Defined.

(** X8.  The incident list is requested only for a [dedupKey] that is
    present and not empty, and the key goes into the query string as it
    is: the URL is
    "https://api.pagerduty.com/incidents?date_range=all&incident_key="
    followed by the key. *)
Theorem incident_list_request env o url hdrs s :
  In (AxiosGet url hdrs s) (trace env o) ->
  exists k,
    dedupKey (params o) = Some k
    /\ k <> EmptyString
    /\ url =
         "https://api.pagerduty.com/incidents?date_range=all&incident_key="
           ++ k.
Proof.
  intros Hin.
  run_paths env o; try (not_in_trace Hin).
  all: in_trace Hin; injection Hin as <- <- <-.
  all: match goal with
       | H : truthy (of_nullable (dedupKey _)) = true |- _ =>
           destruct (provided_some _ H) as (k & -> & Hk)
       end.
  all: exists k; repeat split; assumption.
Qed.

Lemma incident_list_request_witness :
  exists k,
    dedupKey (params (ex_options (Some "key-1") (Some "pd") None)) = Some k
    /\ k <> EmptyString
    /\ pdIncidentListApiUrl "key-1" =
         "https://api.pagerduty.com/incidents?date_range=all&incident_key="
           ++ k.
Proof.
  apply (incident_list_request
           (ex_env_pd (Resolved (ex_incidents [])) (Resolved JNull))
           (ex_options (Some "key-1") (Some "pd") None)
           (pdIncidentListApiUrl "key-1")
           [("x-team", "ops"); ("authorization", "Token token=pd")]
           (Resolved (ex_incidents []))).
  vm_compute. right. left. reflexivity.
Defined.

(** X9.  Every request after the job trigger, that is every request to
    Pager Duty, carries the configured headers with [authorization] set
    to "Token token=<pdApiKey>".  The job runner's token is not among
    them unless the configured headers hold it: every header other than
    [authorization] is as configured. *)
Theorem pagerduty_request_headers env o e hdrs :
  In e (tl (trace env o)) ->
  request_headers e = Some hdrs ->
  hdrs = pagerDutyHeaders o
  /\ lookup "authorization" hdrs =
       Some ("Token token=" ++ string_of_nullable (pdApiKey (secrets o)))
  /\ forall k,
       k <> "authorization" ->
       lookup k hdrs = lookup k (headers_or_empty (headers (config o))).
Proof.
  intros Hin Hhdrs.
  assert (hdrs = pagerDutyHeaders o) as ->.
  { run_paths env o; cbn [tl] in Hin; in_trace Hin; subst e;
      cbn [request_headers] in Hhdrs; try discriminate Hhdrs;
      injection Hhdrs as <-; reflexivity. }
  split; [reflexivity|]. split; [apply lookup_assign|].
  intros k Hk. apply lookup_assign_other, Hk.
Qed.

Lemma pagerduty_request_headers_witness :
  [("x-team", "ops"); ("authorization", "Token token=pd")] =
    pagerDutyHeaders (ex_options (Some "key-1") (Some "pd") None)
  /\ lookup "authorization"
       [("x-team", "ops"); ("authorization", "Token token=pd")] =
       Some ("Token token=" ++ string_of_nullable (Some "pd"))
  /\ forall k,
       k <> "authorization" ->
       lookup k [("x-team", "ops"); ("authorization", "Token token=pd")] =
       lookup k (headers_or_empty (headers ex_config)).
Proof.
  apply (pagerduty_request_headers
           (ex_env_pd (Resolved (ex_incidents [ex_incident "P1"]))
              (Resolved JNull))
           (ex_options (Some "key-1") (Some "pd") None)
           (AxiosPost (pdAddNoteApiUrl "P1")
              (noteMessage "https://rundeck.example.com/e/7")
              [("x-team", "ops"); ("authorization", "Token token=pd")]
              (Resolved JNull))).
  - vm_compute. right. right. left. reflexivity.
  - reflexivity.
Defined.

(** ** Failures of the incident list *)

Lemma pagerDutyErrorMessage_response
    err response status shownStatus message shownMessage :
  get_prop err "response" = Some response ->
  truthy response = true ->
  get_prop response "status" = Some status ->
  to_string status = Some shownStatus ->
  get_path response ["data"; "error"; "message"] = Some message ->
  to_string message = Some shownMessage ->
  pagerDutyErrorMessage err =
    Normal (JStr (shownStatus ++ " " ++ shownMessage)).
Proof.
  intros Hr Ht Hs Hss Hm Hms.
  cbv [pagerDutyErrorMessage read read_path print cbind].
  rewrite Hr, Ht, Hs, Hss, Hm, Hms. reflexivity.
Qed.

Lemma pagerDutyErrorMessage_transport err response message :
  get_prop err "response" = Some response ->
  truthy response = false ->
  get_prop err "message" = Some message ->
  pagerDutyErrorMessage err = Normal message.
Proof.
  intros Hr Ht Hm.
  cbv [pagerDutyErrorMessage read read_path print cbind].
  rewrite Hr, Ht, Hm. reflexivity.
Qed.

(** X10.  When the incident-list request fails, the run ends there: no
    note is posted.  For a failure that carries a response whose status
    and [data.error.message] can be printed, the error result reads "An
    error occurred while calling Pager Duty API in rundeck action
    "<actionId>": <status> <error.message>"; for a failure without a
    response it ends with the error's own [message]. *)
Theorem incident_list_failure env o url hdrs err response :
  In (AxiosGet url hdrs (Rejected err)) (trace env o) ->
  get_prop err "response" = Some response ->
  (exists jurl jbody jhdrs r,
     remote_calls (trace env o) =
       [AxiosPost jurl jbody jhdrs (Resolved r);
        AxiosGet url hdrs (Rejected err)])
  /\ (forall status shownStatus message shownMessage,
        truthy response = true ->
        get_prop response "status" = Some status ->
        to_string status = Some shownStatus ->
        get_path response ["data"; "error"; "message"] = Some message ->
        to_string message = Some shownMessage ->
        outcome env o =
          Normal
            (StatusError
               ("An error occurred while calling Pager Duty API in rundeck action "
                  ++ dquote ++ actionId o ++ dquote ++ ": "
                  ++ shownStatus ++ " " ++ shownMessage)))
  /\ (forall message shown,
        truthy response = false ->
        get_prop err "message" = Some message ->
        to_string message = Some shown ->
        outcome env o =
          Normal
            (StatusError
               ("An error occurred while calling Pager Duty API in rundeck action "
                  ++ dquote ++ actionId o ++ dquote ++ ": " ++ shown))).
Proof.
  intros Hin Hresponse.
  run_paths env o; try (not_in_trace Hin).
  all: in_trace Hin; injection Hin as <- <- <-.
  all: split; [do 4 eexists; reflexivity|].
  all: split.
  all: try (intros status shownStatus message shownMessage Ht Hs Hss Hm Hms;
            pose proof (pagerDutyErrorMessage_response _ _ _ _ _ _
                          Hresponse Ht Hs Hss Hm Hms) as Hpd).
  all: try (intros message shown Ht Hm Hms;
            pose proof (pagerDutyErrorMessage_transport _ _ _
                          Hresponse Ht Hm) as Hpd).
  all: try congruence.
  all: match goal with
       | H : pagerDutyErrorMessage _ = Normal ?x |- _ =>
           is_var x; injection (eq_trans (eq_sym H) Hpd) as ->
       end.
  all: repeat match goal with
       | H : to_string (JStr _) = _ |- _ => cbn [to_string] in H
       end.
  all: congruence.
Qed.

Lemma incident_list_failure_witness :
  (exists jurl jbody jhdrs r,
     remote_calls
       (trace (ex_env_pd (Rejected ex_notFound) (Resolved JNull))
          (ex_options (Some "key-1") (Some "pd") None)) =
       [AxiosPost jurl jbody jhdrs (Resolved r);
        AxiosGet (pdIncidentListApiUrl "key-1")
          [("x-team", "ops"); ("authorization", "Token token=pd")]
          (Rejected ex_notFound)])
  /\ outcome (ex_env_pd (Rejected ex_notFound) (Resolved JNull))
       (ex_options (Some "key-1") (Some "pd") None) =
     Normal
       (StatusError
          ("An error occurred while calling Pager Duty API in rundeck action "
             ++ dquote ++ "a1" ++ dquote ++ ": " ++ "404" ++ " " ++ "Not Found")).
Proof.
  destruct (incident_list_failure
              (ex_env_pd (Rejected ex_notFound) (Resolved JNull))
              (ex_options (Some "key-1") (Some "pd") None)
              (pdIncidentListApiUrl "key-1")
              [("x-team", "ops"); ("authorization", "Token token=pd")]
              ex_notFound
              (JObj [("status", JNum 404);
                     ("data",
                      JObj [("error", JObj [("message", JStr "Not Found")])])])
              (or_intror (or_introl eq_refl)) eq_refl)
    as (Hcalls & Hresponse & _).
  split; [exact Hcalls|].
  exact (Hresponse (JNum 404) "404" (JStr "Not Found") "Not Found"
           eq_refl eq_refl eq_refl eq_refl eq_refl).
Defined.

(** X11.  The emptiness test is [!incidents.length]: whatever
    [data.incidents] is, when its [length] is missing or zero the list
    counts as empty, the "is empty" error is returned and no note is
    posted. *)
Theorem falsy_length_counts_as_empty env o k url hdrs resp incidents length :
  dedupKey (params o) = Some k ->
  In (AxiosGet url hdrs (Resolved resp)) (trace env o) ->
  get_path resp ["data"; "incidents"] = Some incidents ->
  get_prop incidents "length" = Some length ->
  truthy length = false ->
  outcome env o =
    Normal
      (StatusError
         ("An error occurred while calling Pager Duty API in rundeck action "
            ++ dquote ++ actionId o ++ dquote
            ++ ": Pager Duty incident list requested by dedupKey(incident_key), "
            ++ dquote ++ k ++ dquote ++ ", is empty."))
  /\ exists jurl jbody jhdrs r,
       remote_calls (trace env o) =
         [AxiosPost jurl jbody jhdrs (Resolved r);
          AxiosGet url hdrs (Resolved resp)].
Proof.
  intros Hk Hin Hinc Hlen Hfalsy.
  run_paths env o; try (not_in_trace Hin).
  all: in_trace Hin; injection Hin as <- <- <-.
  all: try congruence.
  rewrite Hk. cbn [string_of_nullable]. split; [reflexivity|].
  do 4 eexists. reflexivity.
Qed.

Lemma falsy_length_counts_as_empty_witness :
  outcome
    (ex_env_pd
       (Resolved (JObj [("data", JObj [("incidents", JObj [])])]))
       (Resolved JNull))
    (ex_options (Some "key-1") (Some "pd") None) =
    Normal
      (StatusError
         ("An error occurred while calling Pager Duty API in rundeck action "
            ++ dquote ++ "a1" ++ dquote
            ++ ": Pager Duty incident list requested by dedupKey(incident_key), "
            ++ dquote ++ "key-1" ++ dquote ++ ", is empty."))
  /\ exists jurl jbody jhdrs r,
       remote_calls
         (trace
            (ex_env_pd
               (Resolved (JObj [("data", JObj [("incidents", JObj [])])]))
               (Resolved JNull))
            (ex_options (Some "key-1") (Some "pd") None)) =
         [AxiosPost jurl jbody jhdrs (Resolved r);
          AxiosGet (pdIncidentListApiUrl "key-1")
            [("x-team", "ops"); ("authorization", "Token token=pd")]
            (Resolved (JObj [("data", JObj [("incidents", JObj [])])]))].
Proof.
  apply (falsy_length_counts_as_empty
           (ex_env_pd
              (Resolved (JObj [("data", JObj [("incidents", JObj [])])]))
              (Resolved JNull))
           (ex_options (Some "key-1") (Some "pd") None) "key-1"
           (pdIncidentListApiUrl "key-1")
           [("x-team", "ops"); ("authorization", "Token token=pd")]
           (JObj [("data", JObj [("incidents", JObj [])])])
           (JObj []) JUndefined).
  - reflexivity.
  - vm_compute. right. left. reflexivity.
  - reflexivity.
  - reflexivity.
  - reflexivity.
Defined.

(** ** Runs that return *)

Lemma forallb_last {A} (p : A -> bool) (l : list A) (d : A) :
  l <> [] -> forallb p l = true -> p (List.last l d) = true.
Proof.
  intros Hne H. induction l as [|x l IH]; [contradiction|].
  cbn [forallb] in H. apply andb_prop in H as [Hx Hl].
  destruct l as [|y l]; [exact Hx|].
  apply IH; [discriminate | exact Hl].
Qed.

(** X12.  With collaborators whose answers have the fields the executor
    reads, in a form it can print (a message for each catch block to
    report, a job response with a body and a status line, an incident list
    that is an array of incidents), a run never throws: it returns a
    result. *)
Theorem well_behaved_runs_return env o :
  well_behaved env ->
  exists result, outcome env o = Normal result.
Proof.
  intros [Hjoberr Hjob Hhook Hlisterr Hlist Hnoteerr].
  run_paths env o; try (eexists; reflexivity); exfalso.
  all: repeat match goal with
       | H : axios_post _ [] _ _ _ = Resolved _ |- _ =>
           apply Hjob in H; destruct H as (? & ? & ?)
       | H : axios_post _ [] _ _ _ = Rejected _ |- _ =>
           apply Hjoberr in H
       | H : axios_post _ (_ :: _) _ _ _ = Rejected _ |- _ =>
           apply Hnoteerr in H; destruct H
       | H : axios_post _ (_ :: _) _ _ _ = Resolved _ |- _ =>
           clear H
       | H : axios_get _ _ _ _ = Rejected _ |- _ =>
           apply Hlisterr in H
       | H : axios_get _ _ _ _ = Resolved _ |- _ =>
           apply Hlist in H
       | H : webhook_send _ _ _ _ = Rejected _ |- _ =>
           apply Hhook in H
       | H : webhook_send _ _ _ _ = Resolved _ |- _ =>
           clear H
       end.
  all: unfold prints, prints_prop, printable, incident_objects in *.
  all: repeat match goal with
       | H : ?x = _, H' : context [?x] |- _ =>
           lazymatch x with
           | get_prop _ _ => idtac
           | get_path _ _ => idtac
           | to_string _ => idtac
           | rundeckErrorMessage _ => idtac
           | pagerDutyErrorMessage _ => idtac
           end;
           rewrite H in H'
       end.
  all: cbn [is_some] in *; try discriminate.
  all: try match goal with
       | H : get_path ?v (_ :: _) = Some _, H' : get_prop ?v _ = None |- _ =>
           destruct v; discriminate
       end.
  all: match goal with
       | H : match ?x with _ => _ end = true |- _ =>
           destruct x as [| | | | |items|]; try discriminate H
       end.
  all: try discriminate.
  match goal with
  | H : pop (JArr _) = Some ?x |- _ =>
      cbn [pop] in H; injection H as <-
  end.
  match goal with
  | H : forallb _ _ = true |- _ =>
      apply (forallb_last _ _ JUndefined) in H
  end.
  - match goal with
    | H : _ = true, H' : get_prop ?x _ = None |- _ =>
        cbv beta in H; destruct x; discriminate
    end.
  - intros ->.
    match goal with
    | H : get_prop (JArr []) "length" = Some _ |- _ =>
        cbn in H; injection H as <-
    end.
    discriminate.
Qed.

Lemma well_behaved_runs_return_witness :
  exists result,
    outcome
      (ex_env_pd (Resolved (ex_incidents [ex_incident "P1"; ex_incident "P2"]))
         (Rejected ex_notFound))
      (ex_options (Some "key-1") (Some "pd") None) = Normal result.
Proof.
  apply (well_behaved_runs_return
           (ex_env_pd
              (Resolved (ex_incidents [ex_incident "P1"; ex_incident "P2"]))
              (Rejected ex_notFound))
           (ex_options (Some "key-1") (Some "pd") None)).
  split; cbn.
  - discriminate.
  - intros url body hdrs r H. injection H as <-. repeat split.
  - intros t url message err H. injection H as <-. reflexivity.
  - discriminate.
  - intros t url hdrs r H. injection H as <-. reflexivity.
  - intros ev t url body hdrs err H. injection H as <-. split; reflexivity.
Defined.

(** ** What a path does not depend on *)

(** X13.  Without a [dedupKey] the Pager Duty key plays no part: a run
    with any other [pdApiKey] makes the same calls and ends the same
    way. *)
Theorem chat_path_ignores_pdApiKey env o k :
  provided (dedupKey (params o)) = false ->
  run env (with_pdApiKey o k) = run env o.
Proof.
  intros Hd.
  unfold run, provided in *.
  destruct (executor env o []) as [c t] eqn:E.
  unfold_executor E. repeat step E.
  all: cbv beta iota zeta in E; cbn [app negb to_string] in E.
  all: apply pair_equal_spec in E; destruct E as [<- <-].
  all: replay; reflexivity.
Qed.

Lemma chat_path_ignores_pdApiKey_witness :
  run (ex_env_slack (Resolved (JStr "ok")))
    (with_pdApiKey (ex_options None None (Some "https://hooks.example.com/T1"))
       (Some "pd")) =
  run (ex_env_slack (Resolved (JStr "ok")))
    (ex_options None None (Some "https://hooks.example.com/T1")).
Proof.
  apply (chat_path_ignores_pdApiKey
           (ex_env_slack (Resolved (JStr "ok")))
           (ex_options None None (Some "https://hooks.example.com/T1"))
           (Some "pd")).
  reflexivity.
Defined.

(** X14.  With a [dedupKey] the webhook URL and the alert name play no
    part: a run with any other [slackWebhookUrl] and [alertName] makes
    the same calls and ends the same way. *)
Theorem incident_path_ignores_slack env o url name :
  provided (dedupKey (params o)) = true ->
  run env (with_slack o url name) = run env o.
Proof.
  intros Hd.
  unfold run, provided in *.
  destruct (executor env o []) as [c t] eqn:E.
  unfold_executor E. repeat step E.
  all: cbv beta iota zeta in E; cbn [app negb to_string] in E.
  all: apply pair_equal_spec in E; destruct E as [<- <-].
  all: replay; reflexivity.
Qed.

Lemma incident_path_ignores_slack_witness :
  run (ex_env_pd (Resolved (ex_incidents [ex_incident "P1"])) (Resolved JNull))
    (with_slack (ex_options (Some "key-1") (Some "pd") None)
       (Some "https://hooks.example.com/T1") None) =
  run (ex_env_pd (Resolved (ex_incidents [ex_incident "P1"])) (Resolved JNull))
    (ex_options (Some "key-1") (Some "pd") None).
Proof.
  apply (incident_path_ignores_slack
           (ex_env_pd (Resolved (ex_incidents [ex_incident "P1"]))
              (Resolved JNull))
           (ex_options (Some "key-1") (Some "pd") None)
           (Some "https://hooks.example.com/T1") None).
  reflexivity.
Defined.
